(** * Bedrock Support Assistant: the request handlers of [app.py]

    A shallow embedding of [SupportTicketHandler.do_GET] and
    [SupportTicketHandler.do_POST], and of what they use of Python:
    strings as sequences of code points, [str.strip], [in], [int],
    [bytes.decode], the values and the decoder of [json], [dict.get]
    and subscripting, exceptions.  The inference client is a function
    from the arguments of [invoke_model] to a reply or an exception;
    a handler returns the response it sends and the calls it made.

    Then the properties of the pipeline: validation, invocation, the
    mapping of failures to statuses, and the health probe.

    [send_json_response] is taken further down to the bytes it
    writes, with [json.dumps] and [str.encode]; the two tests of
    [test_app.py] read those bytes as their client does. *)

From Stdlib Require Import List ZArith NArith Bool Lia.
From Stdlib Require Import Strings.String Strings.Ascii Strings.Byte.
From Stdlib Require Import Numbers.DecimalString.
From Stdlib Require DecimalPos.
Import ListNotations.

#[local] Set Warnings "-register-all".
Local Open Scope Z_scope.

(** ** Python values *)

Module Py.

(** A Python [str] is a sequence of Unicode code points; [len] counts
    code points. *)
Definition str : Type := list N.

Definition len (s : str) : Z := Z.of_nat (List.length s).

(** [lit] reads a byte string as Latin-1 text, one character a byte:
    the ASCII literals of the source, and header values. *)
Definition lit (s : string) : str :=
  List.map (fun b => Byte.to_N b) (list_byte_of_string s).

Fixpoint str_eqb (a b : str) : bool :=
  match a, b with
  | [], [] => true
  | x :: a', y :: b' => N.eqb x y && str_eqb a' b'
  | _, _ => false
  end.

Fixpoint startswith (prefix s : str) : bool :=
  match prefix, s with
  | [], _ => true
  | x :: p', y :: s' => N.eqb x y && startswith p' s'
  | _ :: _, [] => false
  end.

(** [needle in hay] for two strings: substring test. *)
Fixpoint contains (needle hay : str) : bool :=
  startswith needle hay ||
  match hay with
  | [] => false
  | _ :: hay' => contains needle hay'
  end.

(** [str.isspace] on one code point (the table of
    [_PyUnicode_IsWhitespace]). *)
Definition isspace (c : N) : bool :=
  ((9 <=? c) && (c <=? 13) || (28 <=? c) && (c <=? 32) ||
   (c =? 133) || (c =? 160) || (c =? 5760) ||
   (8192 <=? c) && (c <=? 8202) || (c =? 8232) || (c =? 8233) ||
   (c =? 8239) || (c =? 8287) || (c =? 12288))%N.

Fixpoint lstrip (s : str) : str :=
  match s with
  | c :: s' => if isspace c then lstrip s' else s
  | [] => []
  end.

Definition rstrip (s : str) : str := rev (lstrip (rev s)).

(** [s.strip()] *)
Definition strip (s : str) : str := rstrip (lstrip s).

(** [str(n)] for an integer *)
Definition str_of_int (n : Z) : str := lit (NilZero.string_of_int (Z.to_int n)).

(** [not s] for a string *)
Definition not_ (s : str) : bool :=
  match s with
  | [] => true
  | _ :: _ => false
  end.

(** The values [json.loads] produces.  A float is kept as the text of
    its literal; a [dict] keeps its keys in insertion order, each once. *)
Inductive value : Type :=
| VNone
| VBool (b : bool)
| VInt (n : Z)
| VFloat (literal : str)
| VStr (s : str)
| VList (items : list value)
| VDict (items : list (str * value)).

(** [d.get(key)] on the items of a dict *)
Fixpoint dict_lookup (d : list (str * value)) (key : str) : option value :=
  match d with
  | [] => None
  | (k, v) :: d' => if str_eqb k key then Some v else dict_lookup d' key
  end.

(** [d[key] = v]: an existing key keeps its place *)
Fixpoint dict_set (d : list (str * value)) (key : str) (v : value)
  : list (str * value) :=
  match d with
  | [] => [(key, v)]
  | (k, w) :: d' =>
      if str_eqb k key then (k, v) :: d' else (k, w) :: dict_set d' key v
  end.

(** [e.response] of a botocore [ClientError]: a dict that may have an
    ["Error"] dict, which may have a ["Code"] *)
Record error_info : Type := mk_error_info {
  Code : option str
}.

Record error_response : Type := mk_error_response {
  Error : option error_info
}.

(** The exceptions the handler can meet.  All are subclasses of
    [Exception]; [JSONDecodeError] and [UnicodeDecodeError] are both
    [ValueError]s but neither is a subclass of the other. *)
Inductive exn : Type :=
| ClientError (response : error_response)
| BotoCoreError
| JSONDecodeError
| UnicodeDecodeError
| ValueError
| AttributeError
| KeyError
| IndexError
| TypeError
| OtherException.

Inductive result (A : Type) : Type :=
| Ok (a : A)
| Raise (e : exn).
Arguments Ok {A} a.
Arguments Raise {A} e.

(** [d.get(key, default)]: only a dict has the method. *)
Definition get (d : value) (key : str) (default : value) : result value :=
  match d with
  | VDict items =>
      match dict_lookup items key with
      | Some v => Ok v
      | None => Ok default
      end
  | _ => Raise AttributeError
  end.

(** [v.strip()]: only a str has the method. *)
Definition strip_method (v : value) : result str :=
  match v with
  | VStr s => Ok (strip s)
  | _ => Raise AttributeError
  end.

(** [v[key]] with a string key *)
Definition getitem (v : value) (key : str) : result value :=
  match v with
  | VDict items =>
      match dict_lookup items key with
      | Some w => Ok w
      | None => Raise KeyError
      end
  | _ => Raise TypeError     (* wrong index type, or not subscriptable *)
  end.

(** [v[0]] *)
Definition getitem0 (v : value) : result value :=
  match v with
  | VList (x :: _) => Ok x
  | VList [] => Raise IndexError
  | VStr (c :: _) => Ok (VStr [c])
  | VStr [] => Raise IndexError
  | VDict _ => Raise KeyError               (* the keys of parsed JSON are strings *)
  | _ => Raise TypeError
  end.

Definition bind {A B : Type} (m : result A) (k : A -> result B) : result B :=
  match m with
  | Ok a => k a
  | Raise e => Raise e
  end.

(** *** [bytes.decode("utf-8")] *)

Definition continuation (b : N) : bool := ((128 <=? b) && (b <=? 191))%N.

(** Strict UTF-8: shortest forms only, no surrogates, nothing above
    U+10FFFF.  [None] stands for [UnicodeDecodeError]. *)
Fixpoint utf8_points (bs : list N) : option str :=
  match bs with
  | [] => Some []
  | b0 :: r0 =>
      if (b0 <? 128)%N then option_map (cons b0) (utf8_points r0)
      else if ((194 <=? b0) && (b0 <=? 223))%N then
        match r0 with
        | b1 :: r1 =>
            if continuation b1
            then option_map (cons ((b0 - 192) * 64 + (b1 - 128))%N)
                            (utf8_points r1)
            else None
        | _ => None
        end
      else if ((224 <=? b0) && (b0 <=? 239))%N then
        match r0 with
        | b1 :: b2 :: r2 =>
            if ((if b0 =? 224 then 160 else 128) <=? b1)%N &&
               (b1 <=? (if b0 =? 237 then 159 else 191))%N &&
               continuation b2
            then option_map
                   (cons ((b0 - 224) * 4096 + (b1 - 128) * 64 + (b2 - 128))%N)
                   (utf8_points r2)
            else None
        | _ => None
        end
      else if ((240 <=? b0) && (b0 <=? 244))%N then
        match r0 with
        | b1 :: b2 :: b3 :: r3 =>
            if ((if b0 =? 240 then 144 else 128) <=? b1)%N &&
               (b1 <=? (if b0 =? 244 then 143 else 191))%N &&
               continuation b2 && continuation b3
            then option_map
                   (cons ((b0 - 240) * 262144 + (b1 - 128) * 4096 +
                          (b2 - 128) * 64 + (b3 - 128))%N)
                   (utf8_points r3)
            else None
        | _ => None
        end
      else None
  end.

Definition decode (body : list byte) : result str :=
  match utf8_points (List.map Byte.to_N body) with
  | Some s => Ok s
  | None => Raise UnicodeDecodeError
  end.

(** *** [int(s)] for a string, base 10

    Surrounding whitespace, a sign, ASCII digits with single
    underscores between them (the decimal digits of other scripts, which
    [int] also reads, occur neither in Latin-1 header text nor in a
    JSON number), and the interpreter's limit on the number of digits. *)

Definition digit (c : N) : option Z :=
  if ((48 <=? c) && (c <=? 57))%N then Some (Z.of_N (c - 48)) else None.

(** The digits after the first one; an underscore may stand between
    two digits. *)
Fixpoint int_digits (acc : Z) (s : str) : option Z :=
  match s with
  | [] => Some acc
  | c :: s' =>
      if (c =? 95)%N then
        match s' with
        | d :: s'' =>
            match digit d with
            | Some v => int_digits (10 * acc + v) s''
            | None => None
            end
        | [] => None
        end
      else
        match digit c with
        | Some v => int_digits (10 * acc + v) s'
        | None => None
        end
  end.

(** [sys.get_int_max_str_digits()], the interpreter's default *)
Definition int_max_str_digits : Z := 4300.

Definition count_digits (s : str) : Z :=
  Z.of_nat (List.length (List.filter (fun c => negb (c =? 95)%N) s)).

Definition int_of_str (s : str) : result Z :=
  let s := strip s in
  let '(negative, digits) :=
    match s with
    | 45%N :: r => (true, r)
    | 43%N :: r => (false, r)
    | _ => (false, s)
    end in
  match digits with
  | d :: r =>
      match digit d with
      | Some v =>
          match int_digits v r with
          | Some n =>
              if count_digits digits >? int_max_str_digits
              then Raise ValueError
              else Ok (if negative then - n else n)
          | None => Raise ValueError
          end
      | None => Raise ValueError
      end
  | [] => Raise ValueError
  end.

End Py.

(** ** [json.loads]

    The decoder of the standard library on a [str], after
    [json/decoder.py] and the scanner of [_json.c]: strict strings,
    [NaN] and the infinities accepted, the last of two equal keys wins.
    The recursion limit of the interpreter is not part of it. *)

Module Json.
Import Py.

Definition result_of {A : Type} (o : option A) : result A :=
  match o with
  | Some a => Ok a
  | None => Raise JSONDecodeError
  end.

(** [WHITESPACE.match(s, idx).end()] *)
Fixpoint whitespace (s : str) : str :=
  match s with
  | c :: s' =>
      if ((c =? 32) || (c =? 9) || (c =? 10) || (c =? 13))%N
      then whitespace s' else s
  | [] => []
  end.

Definition hexdigit (c : N) : option N :=
  if ((48 <=? c) && (c <=? 57))%N then Some (c - 48)%N
  else if ((97 <=? c) && (c <=? 102))%N then Some (c - 87)%N
  else if ((65 <=? c) && (c <=? 70))%N then Some (c - 55)%N
  else None.

Definition hex4 (a b c d : N) : option N :=
  match hexdigit a, hexdigit b, hexdigit c, hexdigit d with
  | Some x, Some y, Some z, Some w =>
      Some (((x * 16 + y) * 16 + z) * 16 + w)%N
  | _, _, _, _ => None
  end.

Definition escape (c : N) : option N :=
  if (c =? 34)%N then Some 34%N            (* quotation mark *)
  else if (c =? 92)%N then Some 92%N       (* reverse solidus *)
  else if (c =? 47)%N then Some 47%N       (* solidus *)
  else if (c =? 98)%N then Some 8%N        (* b *)
  else if (c =? 102)%N then Some 12%N      (* f *)
  else if (c =? 110)%N then Some 10%N      (* n *)
  else if (c =? 114)%N then Some 13%N      (* r *)
  else if (c =? 116)%N then Some 9%N       (* t *)
  else None.

Definition high_surrogate (u : N) : bool := ((55296 <=? u) && (u <=? 56319))%N.
Definition low_surrogate (u : N) : bool := ((56320 <=? u) && (u <=? 57343))%N.
Definition join_surrogates (hi lo : N) : N :=
  (65536 + (hi - 55296) * 1024 + (lo - 56320))%N.

(** [scanstring] from just after the opening quote; [acc] holds the
    characters read so far, last first. *)
Fixpoint scanstring (s : str) (acc : str) : option (str * str) :=
  match s with
  | [] => None                                   (* unterminated *)
  | c :: r =>
      if (c =? 34)%N then Some (rev acc, r)
      else if (c =? 92)%N then
        match r with
        | [] => None
        | e :: r1 =>
            if (e =? 117)%N then
              match r1 with
              | h1 :: h2 :: h3 :: h4 :: r2 =>
                  match hex4 h1 h2 h3 h4 with
                  | None => None
                  | Some u =>
                      if high_surrogate u then
                        match r2 with
                        | 92%N :: 117%N :: g1 :: g2 :: g3 :: g4 :: r3 =>
                            match hex4 g1 g2 g3 g4 with
                            | None => None
                            | Some u2 =>
                                if low_surrogate u2
                                then scanstring r3 (join_surrogates u u2 :: acc)
                                else scanstring r2 (u :: acc)
                            end
                        | _ => scanstring r2 (u :: acc)
                        end
                      else scanstring r2 (u :: acc)
                  end
              | _ => None
              end
            else
              match escape e with
              | Some x => scanstring r1 (x :: acc)
              | None => None
              end
        end
      else if (c <=? 31)%N then None               (* control character *)
      else scanstring r (c :: acc)
  end.

Definition isdigit (c : N) : bool := ((48 <=? c) && (c <=? 57))%N.

(** The longest run of digits at the head of [s], and what follows *)
Fixpoint digits (s : str) : str * str :=
  match s with
  | c :: s' =>
      if isdigit c then let '(ds, r) := digits s' in (c :: ds, r)
      else ([], s)
  | [] => ([], [])
  end.

(** An integer literal goes through [int], with its limit on digits. *)
Definition int_value (text : str) : result value :=
  bind (int_of_str text) (fun n => Ok (VInt n)).

(** The sign of a number, when it has one *)
Definition sign_part (s : str) : str * str :=
  match s with
  | 45%N :: r => ([45%N], r)
  | _ => ([], s)
  end.

(** The integer part that starts with the digit [c]: a lone zero, or
    all the digits that follow *)
Definition integer_part (c : N) (s : str) : str * str :=
  if (c =? 48)%N then ([c], s)
  else let '(ds, r) := digits s in (c :: ds, r).

(** A point and at least one digit, or nothing *)
Definition fraction_part (s : str) : str * str :=
  match s with
  | 46%N :: r =>
      match digits r with
      | ([], _) => ([], s)
      | (ds, r') => (46%N :: ds, r')
      end
  | _ => ([], s)
  end.

(** An [e], a sign if any and at least one digit, or nothing *)
Definition exponent_part (s : str) : str * str :=
  match s with
  | e :: r =>
      if ((e =? 101) || (e =? 69))%N then
        let '(esign, r') :=
          match r with
          | x :: r'' =>
              if ((x =? 45) || (x =? 43))%N then ([x], r'') else ([], r)
          | [] => ([], r)
          end in
        match digits r' with
        | ([], _) => ([], s)
        | (ds, r'') => (e :: esign ++ ds, r'')
        end
      else ([], s)
  | [] => ([], s)
  end.

(** A number at the head of [s]: an integer when it has neither
    fraction nor exponent, a float otherwise. *)
Definition match_number (s : str) : result (value * str) :=
  let '(sign, s1) := sign_part s in
  match s1 with
  | [] => Raise JSONDecodeError
  | c :: r1 =>
      if isdigit c then
        let '(int_part, r2) := integer_part c r1 in
        let '(frac, r3) := fraction_part r2 in
        let '(exponent, r4) := exponent_part r3 in
        match frac, exponent with
        | [], [] => bind (int_value (sign ++ int_part)) (fun v => Ok (v, r4))
        | _, _ => Ok (VFloat (sign ++ int_part ++ frac ++ exponent), r4)
        end
      else Raise JSONDecodeError
  end.

Definition constant (name : string) (v : value) (s : str)
  : option (result (value * str)) :=
  if startswith (lit name) s
  then Some (Ok (v, skipn (String.length name) s))
  else None.

(** [scan_once], the object loop and the array loop; [fuel] bounds the
    calls, each of which reads at least one character; it does not
    run out (see [loads_answers]). *)
Fixpoint scan_once (fuel : nat) (s : str) {struct fuel}
  : result (value * str) :=
  match fuel with
  | O => Raise OtherException
  | S fuel' =>
      match s with
      | [] => Raise JSONDecodeError
      | c :: r =>
          if (c =? 34)%N then
            bind (result_of (scanstring r []))
                 (fun '(text, r') => Ok (VStr text, r'))
          else if (c =? 123)%N then
            match whitespace r with
            | 125%N :: r' => Ok (VDict [], r')
            | r' => object_items fuel' r' []
            end
          else if (c =? 91)%N then
            match whitespace r with
            | 93%N :: r' => Ok (VList [], r')
            | r' => array_items fuel' r' []
            end
          else
            match constant "null" VNone s with Some x => x | None =>
            match constant "true" (VBool true) s with Some x => x | None =>
            match constant "false" (VBool false) s with Some x => x | None =>
            match constant "NaN" (VFloat (lit "NaN")) s with Some x => x | None =>
            match constant "Infinity" (VFloat (lit "Infinity")) s
            with Some x => x | None =>
            match constant "-Infinity" (VFloat (lit "-Infinity")) s
            with Some x => x | None =>
            match_number s
            end end end end end end
      end
  end
with object_items (fuel : nat) (s : str) (acc : list (str * value))
       {struct fuel} : result (value * str) :=
  match fuel with
  | O => Raise OtherException
  | S fuel' =>
      match s with
      | 34%N :: r =>
          bind (result_of (scanstring r [])) (fun '(key, r1) =>
          match whitespace r1 with
          | 58%N :: r2 =>
              bind (scan_once fuel' (whitespace r2)) (fun '(v, r3) =>
              let acc' := dict_set acc key v in
              match whitespace r3 with
              | 125%N :: r4 => Ok (VDict acc', r4)
              | 44%N :: r4 => object_items fuel' (whitespace r4) acc'
              | _ => Raise JSONDecodeError
              end)
          | _ => Raise JSONDecodeError
          end)
      | _ => Raise JSONDecodeError
      end
  end
with array_items (fuel : nat) (s : str) (acc : list value)
       {struct fuel} : result (value * str) :=
  match fuel with
  | O => Raise OtherException
  | S fuel' =>
      bind (scan_once fuel' s) (fun '(v, r) =>
      match whitespace r with
      | 93%N :: r' => Ok (VList (rev (v :: acc)), r')
      | 44%N :: r' => array_items fuel' (whitespace r') (v :: acc)
      | _ => Raise JSONDecodeError
      end)
  end.

(** [json.loads(s)] *)
Definition loads (s : str) : result value :=
  if startswith [65279%N] s then Raise JSONDecodeError    (* UTF-8 BOM *)
  else
    bind (scan_once (2 * List.length s + 2) (whitespace s)) (fun '(obj, r) =>
    match whitespace r with
    | [] => Ok obj
    | _ => Raise JSONDecodeError                           (* extra data *)
    end).

End Json.

(** ** [json.dumps]

    The encoder with its defaults: [ensure_ascii], the separators
    [", "] and [": "], no indentation, the keys of a dict in their
    order.  What it writes for a float is left to a function of the
    literal.  The recursion limit of the interpreter is not part of
    it. *)

Module Dumps.
Import Py.

(** The digit [d] in ["0123456789abcdef"] *)
Definition hexchar (d : N) : N := (if d <? 10 then 48 + d else 87 + d)%N.

(** ['\\u{0:04x}'.format(n)] *)
Definition u_escape (n : N) : str :=
  [92; 117; hexchar (n / 4096 mod 16); hexchar (n / 256 mod 16);
   hexchar (n / 16 mod 16); hexchar (n mod 16)]%N.

(** What [encode_basestring_ascii] puts for one character: the short
    escapes of [ESCAPE_DCT], the printable ASCII characters as they
    are, everything else as [\uXXXX], above U+FFFF as a surrogate
    pair. *)
Definition escape_char (c : N) : str :=
  (if c =? 34 then [92; 34]
   else if c =? 92 then [92; 92]
   else if c =? 8 then [92; 98]
   else if c =? 12 then [92; 102]
   else if c =? 10 then [92; 110]
   else if c =? 13 then [92; 114]
   else if c =? 9 then [92; 116]
   else if (32 <=? c) && (c <=? 126) then [c]
   else if c <? 65536 then u_escape c
   else
     let n := c - 65536 in
     let s1 := N.lor 55296 (N.land (N.shiftr n 10) 1023) in
     let s2 := N.lor 56320 (N.land n 1023) in
     u_escape s1 ++ u_escape s2)%N.

Definition encode_basestring_ascii (s : str) : str :=
  [34%N] ++ List.flat_map escape_char s ++ [34%N].

(** [int.__repr__], with the interpreter's limit on digits *)
Definition repr_int (n : Z) : result str :=
  if len (str_of_int (Z.abs n)) >? int_max_str_digits
  then Raise ValueError
  else Ok (str_of_int n).

(** [sep.join(chunks)] *)
Fixpoint join (sep : str) (chunks : list str) : str :=
  match chunks with
  | [] => []
  | [chunk] => chunk
  | chunk :: chunks' => chunk ++ sep ++ join sep chunks'
  end.

(** The results of a list of computations, or the first exception *)
Fixpoint sequence {A : Type} (l : list (result A)) : result (list A) :=
  match l with
  | [] => Ok []
  | r :: l' => bind r (fun a => bind (sequence l') (fun l'' => Ok (a :: l'')))
  end.

Section Encoder.

(** [floatstr] of the encoder: [repr] of the float that the literal
    denotes, or one of [NaN], [Infinity] and [-Infinity] *)
Variable float_repr : str -> str.

(** [json.dumps(v)] *)
Fixpoint dumps (v : value) : result str :=
  match v with
  | VNone => Ok (lit "null")
  | VBool true => Ok (lit "true")
  | VBool false => Ok (lit "false")
  | VInt n => repr_int n
  | VFloat literal => Ok (float_repr literal)
  | VStr s => Ok (encode_basestring_ascii s)
  | VList items =>
      bind (sequence (List.map dumps items)) (fun chunks =>
      Ok (lit "[" ++ join (lit ", ") chunks ++ lit "]"))
  | VDict items =>
      bind (sequence (List.map (fun '(key, x) =>
              bind (dumps x) (fun chunk =>
              Ok (encode_basestring_ascii key ++ lit ": " ++ chunk)))
            items)) (fun chunks =>
      Ok (lit "{" ++ join (lit ", ") chunks ++ lit "}"))
  end.

End Encoder.

End Dumps.

(** ** [str.encode("utf-8")]

    A surrogate cannot be encoded ([UnicodeEncodeError], a
    [ValueError]). *)

Definition utf8_bytes (c : N) : option (list N) :=
  (if c <? 128 then Some [c]
   else if c <? 2048 then Some [192 + c / 64; 128 + c mod 64]
   else if (55296 <=? c) && (c <=? 57343) then None
   else if c <? 65536
   then Some [224 + c / 4096; 128 + c / 64 mod 64; 128 + c mod 64]
   else Some [240 + c / 262144; 128 + c / 4096 mod 64;
              128 + c / 64 mod 64; 128 + c mod 64])%N.

Definition byte_of (n : N) : byte :=
  match Byte.of_N n with
  | Some b => b
  | None => x00
  end.

Fixpoint encode (s : Py.str) : Py.result (list byte) :=
  match s with
  | [] => Py.Ok []
  | c :: s' =>
      match utf8_bytes c with
      | Some bs =>
          Py.bind (encode s') (fun body => Py.Ok (List.map byte_of bs ++ body))
      | None => Py.Raise Py.ValueError
      end
  end.

(** ** The application *)

Import Py.

(** *** Configuration *)

Definition REGION : str := lit "eu-west-2".
Definition MODEL_ID : str := lit "amazon.nova-pro-v1:0".
Definition MAX_TICKET_LENGTH : Z := 5000.
Definition PORT : Z := 8080.

(** *** The collaborators *)

(** The keyword arguments of [invoke_model]; [body] is the object the
    handler passes to [json.dumps]. *)
Record invoke_args : Type := mk_invoke_args {
  modelId : str;
  contentType : str;
  accept : str;
  body : value
}.

(** What [invoke_model] returns: [read_body] is
    [response["body"].read()], which may itself fail. *)
Record invoke_response : Type := mk_invoke_response {
  read_body : result (list byte)
}.

(** A [bedrock-runtime] client *)
Record client : Type := mk_client {
  invoke_model : invoke_args -> result invoke_response
}.

(** The module-level state the handlers see *)
Record server : Type := mk_server {
  bedrock_client : option client      (* [None] when the client could not be made *)
}.

(** The part of a request the handlers read.  The header values are
    Latin-1 text, as [http.server] decodes them. *)
Record request : Type := mk_request {
  path : string;
  Content_Type : option string;       (* [self.headers.get("Content-Type")] *)
  Content_Length : option string;     (* [self.headers.get("Content-Length")] *)
  rfile : list byte                   (* what the client sends after the headers *)
}.

(** [self.rfile.read(n)]: at most [n] bytes, everything up to the end
    of the stream when [n] is negative. *)
Definition read (stream : list byte) (n : Z) : list byte :=
  if n <? 0 then stream else firstn (Z.to_nat n) stream.

(** What [send_json_response(status_code, data)] puts on the wire *)
Record response : Type := mk_response {
  status_code : Z;
  data : value
}.

Definition send_json_response (status_code : Z) (data : value) : response :=
  mk_response status_code data.

(** The dict [{"error": message}] *)
Definition error (message : string) : value :=
  VDict [(lit "error", VStr (lit message))].

(** *** Handler computations

    A handler computation ends with a value or with an exception and
    records, in order, the calls it made to [invoke_model]. *)

Definition M (A : Type) : Type := result A * list invoke_args.

Definition ret {A : Type} (a : A) : M A := (Ok a, []).

Definition raise {A : Type} (e : exn) : M A := (Raise e, []).

Definition lift {A : Type} (r : result A) : M A := (r, []).

Definition mbind {A B : Type} (m : M A) (k : A -> M B) : M B :=
  match m with
  | (Ok a, calls) => let '(r, calls') := k a in (r, calls ++ calls')
  | (Raise e, calls) => (Raise e, calls)
  end.

Notation "x <- m ;; k" := (mbind m (fun x => k))
  (at level 61, m at next level, right associativity).

(** [try: m  except ...: handler] *)
Definition try_except {A : Type} (m : M A) (handler : exn -> M A) : M A :=
  match m with
  | (Ok a, calls) => (Ok a, calls)
  | (Raise e, calls) => let '(r, calls') := handler e in (r, calls ++ calls')
  end.

Definition call (c : client) (args : invoke_args) : M invoke_response :=
  (invoke_model c args, [args]).

(** *** [SupportTicketHandler] *)

Definition system_prompt : str := lit
"You are a support ticket analyzer. Analyze the following support ticket and provide:
1. A brief summary (1-2 sentences)
2. Severity level (critical, high, medium, low)
3. Category (technical, billing, account, other)
4. Suggested response to send to the customer

Format your response as JSON with fields: summary, severity, category, suggested_response".

Definition do_GET (srv : server) (utcnow : str) (req : request) : response :=
  if String.eqb (path req) "/health" then
    send_json_response 200 (VDict [
      (lit "status", VStr (lit "healthy"));
      (lit "timestamp", VStr utcnow);
      (lit "service", VStr (lit "bedrock-support-assistant"));
      (lit "region", VStr REGION);
      (lit "model", VStr MODEL_ID)])
  else
    send_json_response 404 (error "Not found").

Section Handler.

(** [json.loads] on a [str].  The handler tells three outcomes apart:
    a value, [JSONDecodeError], any other exception; it is written
    over an arbitrary such function, of which [Json.loads] is one. *)
Variable json_loads : str -> result value.

(** [json.loads(v)] for a value that need not be a string *)
Definition json_loads_value (v : value) : result value :=
  match v with
  | VStr s => json_loads s
  | _ => Raise TypeError
  end.

(** [e.response.get("Error", {}).get("Code", "")] *)
Definition error_code_of (e_response : error_response) : str :=
  match Error e_response with
  | Some info =>
      match Code info with
      | Some code => code
      | None => lit ""
      end
  | None => lit ""
  end.

(** The [except ClientError] and [except BotoCoreError] clauses *)
Definition bedrock_except (e : exn) : M response :=
  match e with
  | ClientError e_response =>
      let error_code := error_code_of e_response in
      if contains (lit "ThrottlingException") error_code then
        ret (send_json_response 429
               (error "Service temporarily unavailable (throttled)"))
      else if contains (lit "AccessDeniedException") error_code then
        ret (send_json_response 403
               (error "Access denied - check AWS credentials and permissions"))
      else
        ret (send_json_response 502 (error "Bedrock service error"))
  | BotoCoreError =>
      ret (send_json_response 502 (error "AWS service error"))
  | _ => raise e
  end.

(** [self.headers.get("Content-Type", "")] *)
Definition content_type_of (req : request) : str :=
  match Content_Type req with
  | Some v => lit v
  | None => lit ""
  end.

(** [int(self.headers.get("Content-Length", 0))] *)
Definition content_length_of (req : request) : result Z :=
  match Content_Length req with
  | Some v => int_of_str (lit v)
  | None => Ok 0
  end.

(** The arguments of the one call to [invoke_model] *)
Definition invocation (ticket : str) : invoke_args :=
  let prompt := system_prompt ++ lit "

Support Ticket:
" ++ ticket in
  mk_invoke_args
    MODEL_ID (lit "application/json") (lit "application/json")
    (VDict [
      (lit "messages", VList [
        VDict [
          (lit "role", VStr (lit "user"));
          (lit "content", VList [VDict [(lit "text", VStr prompt)]])]]);
      (lit "inferenceConfig", VDict [
        (lit "max_new_tokens", VInt 1024);
        (lit "temperature", VFloat (lit "0.7"))])]).

(** [response_body["output"]["message"]["content"][0]["text"]] of the
    parsed body of the reply *)
Definition assistant_message_of (reply : invoke_response) : result value :=
  bind (bind (bind (read_body reply) decode) json_loads) (fun response_body =>
  bind (getitem response_body (lit "output")) (fun output =>
  bind (getitem output (lit "message")) (fun message =>
  bind (getitem message (lit "content")) (fun content =>
  bind (getitem0 content) (fun first =>
  getitem first (lit "text")))))).

(** The inner [try] with its two [except] clauses (# Call Bedrock) *)
Definition call_bedrock (c : client) (data : value) (ticket : str)
  : M response :=
  try_except (
    reply <- call c (invocation ticket) ;;
    (* Parse Bedrock response (Nova format) *)
    assistant_message <- lift (assistant_message_of reply) ;;
    (* Try to parse the response as JSON *)
    analysis <- lift (match json_loads_value assistant_message with
                      | Raise JSONDecodeError =>
                          Ok (VDict [(lit "analysis", assistant_message)])
                      | r => r
                      end) ;;
    ticket_id <- lift (get data (lit "ticket_id") (VStr (lit "N/A"))) ;;
    ret (send_json_response 200 (VDict [
      (lit "ticket_id", ticket_id);
      (lit "analysis", analysis)]))
  ) bedrock_except.

(** From # Validate ticket field to the end of the outer [try] *)
Definition analyze (srv : server) (data : value) : M response :=
  ticket <- lift (bind (get data (lit "ticket") (VStr (lit ""))) strip_method) ;;
  if not_ ticket then
    ret (send_json_response 400 (error "Missing or empty 'ticket' field"))
  else
  if len ticket >? MAX_TICKET_LENGTH then
    ret (send_json_response 400 (VDict [(lit "error", VStr (
      lit "Ticket exceeds maximum length of " ++ str_of_int MAX_TICKET_LENGTH
      ++ lit " characters"))]))
  else
  (* Check if Bedrock client is available *)
  match bedrock_client srv with
  | None =>
      ret (send_json_response 503 (error "Bedrock service unavailable"))
  | Some c => call_bedrock c data ticket
  end.

(** The body of the outer [try] of [do_POST] *)
Definition do_POST_body (srv : server) (req : request) : M response :=
  (* Validate content type *)
  let content_type := content_type_of req in
  if negb (contains (lit "application/json") content_type) then
    ret (send_json_response 400 (error "Content-Type must be application/json"))
  else
  (* Get content length *)
  content_length <- lift (content_length_of req) ;;
  if content_length =? 0 then
    ret (send_json_response 400 (error "No content provided"))
  else
  if content_length >? 10485760 then
    ret (send_json_response 413 (error "Payload too large"))
  else
  (* Read and parse JSON *)
  let body := read (rfile req) content_length in
  match bind (decode body) json_loads with
  | Raise JSONDecodeError =>
      ret (send_json_response 400 (error "Invalid JSON"))
  | Raise e => raise e
  | Ok data => analyze srv data
  end.

(** [do_POST]: the response sent and the calls made to the client.
    [except Exception] turns whatever escapes the body into a 500. *)
Definition do_POST (srv : server) (req : request)
  : response * list invoke_args :=
  match do_POST_body srv req with
  | (Ok sent, calls) => (sent, calls)
  | (Raise _, calls) =>
      (send_json_response 500 (error "Internal server error"), calls)
  end.

End Handler.

(** *** What the handlers write

    The status, the headers the handler sets itself, in order
    ([send_response] puts [Server] and [Date] before them), and the
    body.  Writing to the socket is taken to succeed. *)

Module Wire.

Record written : Type := mk_written {
  status : Z;
  headers : list (string * string);
  content : list byte
}.

Section Wire.

Variable float_repr : str -> str.

Definition send_cors_headers : list (string * string) :=
  [("Access-Control-Allow-Origin", "*");
   ("Access-Control-Allow-Methods", "GET, POST, OPTIONS");
   ("Access-Control-Allow-Headers", "Content-Type")]%string.

(** [send_json_response]: the status and the headers go out first; an
    exception of [json.dumps] or of [encode] is logged and leaves the
    body unwritten. *)
Definition send_json_response (r : response) : written :=
  mk_written (status_code r)
    (("Content-Type", "application/json")%string :: send_cors_headers)
    match bind (Dumps.dumps float_repr (data r)) encode with
    | Ok response_body => response_body
    | Raise _ => []
    end.

Definition do_GET (srv : server) (utcnow : str) (req : request) : written :=
  send_json_response (do_GET srv utcnow req).

Definition do_POST (json_loads : str -> result value) (srv : server)
    (req : request) : written :=
  send_json_response (fst (do_POST json_loads srv req)).

End Wire.

End Wire.

(** ** The client of [test_app.py] *)

(** [v == s] for a str [s] *)
Definition eq_str (v : value) (s : str) : bool :=
  match v with
  | VStr t => str_eqb t s
  | _ => false
  end.


Module TestApp.

Section TestApp.

Variable float_repr : str -> str.

(** [urllib.request.urlopen] against the handlers: the response when
    its status is 2xx, [HTTPError] otherwise. *)
Definition urlopen (w : Wire.written) : result Wire.written :=
  if (200 <=? Wire.status w) && (Wire.status w <? 300) then Ok w
  else Raise OtherException.

(** [test_health], against a server whose clock reads [utcnow] *)
Definition test_health (srv : server) (utcnow : str) : bool :=
  let url := mk_request "/health" None None [] in
  match
    bind (urlopen (Wire.do_GET float_repr srv utcnow url)) (fun response =>
    bind (bind (decode (Wire.content response)) Json.loads) (fun data =>
    bind (get data (lit "status") VNone) (fun status =>
    Ok (eq_str status (lit "healthy")))))
  with
  | Ok passed => passed
  | Raise _ => false
  end.






End TestApp.

End TestApp.

(** ** Vocabulary of the properties *)

(** The request passes the content-type check, the two length checks
    and the JSON check of [do_POST], and [data] is its parsed body. *)
Definition body_parses_as (json_loads : str -> result value)
    (req : request) (data : value) : Prop :=
  contains (lit "application/json") (content_type_of req) = true /\
  exists n : Z,
    content_length_of req = Ok n /\ n <> 0 /\ n <= 10485760 /\
    bind (decode (read (rfile req) n)) json_loads = Ok data.

(** ... and moreover [ticket] is the trimmed [ticket] field of [data],
    of an accepted length. *)
Definition validated (json_loads : str -> result value)
    (req : request) (data : value) (ticket : str) : Prop :=
  body_parses_as json_loads req data /\
  bind (get data (lit "ticket") (VStr (lit ""))) strip_method = Ok ticket /\
  0 < len ticket <= MAX_TICKET_LENGTH.


(** The field [key] of the JSON object a response carries *)
Definition field (r : response) (key : string) : option value :=
  match data r with
  | VDict items => dict_lookup items (lit key)
  | _ => None
  end.

(** What [call_bedrock] makes of a reply once [invoke_model] has
    returned: the 200 response, or the exception that leaves the body
    of the inner [try]. *)
Definition reply_outcome (json_loads : str -> result value)
    (data : value) (reply : invoke_response) : result response :=
  bind (assistant_message_of json_loads reply) (fun assistant_message =>
  bind (match json_loads_value json_loads assistant_message with
        | Raise JSONDecodeError =>
            Ok (VDict [(lit "analysis", assistant_message)])
        | r => r
        end) (fun analysis =>
  bind (get data (lit "ticket_id") (VStr (lit "N/A"))) (fun ticket_id =>
  Ok (send_json_response 200 (VDict [
        (lit "ticket_id", ticket_id);
        (lit "analysis", analysis)]))))).


(** The outcome [x] of scanning [s] is sound: some of [s] was read, or
    the exception is one the decoder raises. *)
Definition progresses (s : str) (x : result (value * str)) : Prop :=
  match x with
  | Ok (_, r) => (List.length r < List.length s)%nat
  | Raise e => e = JSONDecodeError \/ e = ValueError
  end.

(** The error answers of [do_POST]: status and message *)
Definition error_answers : list (Z * string) :=
  [(400, "Content-Type must be application/json"%string);
   (400, "No content provided"%string);
   (413, "Payload too large"%string);
   (400, "Invalid JSON"%string);
   (400, "Missing or empty 'ticket' field"%string);
   (400, "Ticket exceeds maximum length of 5000 characters"%string);
   (503, "Bedrock service unavailable"%string);
   (429, "Service temporarily unavailable (throttled)"%string);
   (403, "Access denied - check AWS credentials and permissions"%string);
   (502, "Bedrock service error"%string);
   (502, "AWS service error"%string);
   (500, "Internal server error"%string)].


(** *** Serialisation *)

(** [s.isascii()] *)
Definition isascii (s : str) : bool := forallb (fun c => (c <? 128)%N) s.

(** A Unicode scalar value: a code point that is not a surrogate *)
Definition scalar (c : N) : bool :=
  ((c <? 1114112) && negb ((55296 <=? c) && (c <=? 57343)))%N.

(** [P] holds of the [count] numbers from [u] on *)
Fixpoint all_from (P : N -> bool) (count : nat) (u : N) : bool :=
  match count with
  | O => true
  | S count' => P u && all_from P count' (N.succ u)
  end.

(** The escape [\uXXXX] of [u] reads back as [u]. *)
Definition u_escape_reads_back (u : N) : bool :=
  match Dumps.u_escape u with
  | [_; _; h1; h2; h3; h4] =>
      match Json.hex4 h1 h2 h3 h4 with
      | Some v => (v =? u)%N
      | None => false
      end
  | _ => false
  end.

(** Below 1024, [d] keeps its bits under the mask [0x3ff], and
    [0xd800 | d] and [0xdc00 | d] are sums. *)
Definition ten_bits (d : N) : bool :=
  ((N.land d 1023 =? d) && (N.lor 55296 d =? 55296 + d) &&
   (N.lor 56320 d =? 56320 + d))%N.

(** What may follow a value inside a document: nothing, a comma, or
    the bracket or brace that closes the enclosing container *)
Definition delimited (rest : str) : bool :=
  match rest with
  | [] => true
  | c :: _ => ((c =? 44) || (c =? 93) || (c =? 125))%N
  end.

(** No key of [keys] comes a second time. *)
Fixpoint distinct (keys : list str) : bool :=
  match keys with
  | [] => true
  | key :: keys' => negb (existsb (str_eqb key) keys') && distinct keys'
  end.

(** The values that [json.dumps] writes and [json.loads] reads back
    as they were: no float, integers within the limit on digits,
    strings and keys made of Unicode scalar values, the keys of a dict
    all different *)
Fixpoint plain (v : value) : bool :=
  match v with
  | VNone | VBool _ => true
  | VInt n => len (str_of_int (Z.abs n)) <=? int_max_str_digits
  | VFloat _ => false
  | VStr s => forallb scalar s
  | VList items => forallb plain items
  | VDict items =>
      forallb (fun '(key, x) => forallb scalar key && plain x) items &&
      distinct (List.map fst items)
  end.

(** [scan_once] reads [v] back from what [json.dumps] wrote of it,
    whatever follows the value in the document. *)
Definition reads_back (float_repr : str -> str) (v : value) : Prop :=
  forall s fuel rest,
    plain v = true ->
    Dumps.dumps float_repr v = Ok s ->
    delimited rest = true ->
    (2 * List.length (s ++ rest) + 1 <= fuel)%nat ->
    Json.scan_once fuel (s ++ rest) = Ok (v, rest).

(** The characters a plain value can begin with, as [json.dumps]
    writes it *)
Definition opening : list N :=
  [34; 91; 123; 110; 116; 102; 45;
   48; 49; 50; 51; 52; 53; 54; 55; 56; 57]%N.

(** ** The validator as section 4.1 of the specification words it *)

Module Spec.







End Spec.

(** ** Fixtures for the worked examples *)

Module Fixtures.

(** A byte string written with apostrophes where JSON has quotation
    marks *)
Definition quoted (s : string) : list byte :=
  List.map (fun b => if Byte.eqb b x27 then x22 else b) (list_byte_of_string s).

(** The same as a [str] *)
Definition text (s : string) : str := List.map Byte.to_N (quoted s).

(** A POST of [body] that declares JSON and [content_length] *)
Definition post (content_length : string) (body : list byte) : request :=
  mk_request "/"%string (Some "application/json"%string)
             (Some content_length) body.

(** A client whose reply has the bytes [reply] as its body *)
Definition replying (reply : list byte) : client :=
  mk_client (fun _ => Ok (mk_invoke_response (Ok reply))).

(** A client whose call fails with [e] *)
Definition failing (e : exn) : client := mk_client (fun _ => Raise e).


End Fixtures.

(** ** The primitives on small inputs *)

Example strip_example :
  strip (lit "  disk full ") = lit "disk full" /\ strip [8195%N; 10%N] = [].
Proof. split; reflexivity. Qed.

Example contains_example :
  contains (lit "application/json") (lit "application/json; charset=utf-8")
    = true /\
  contains (lit "application/json") (lit "Application/JSON") = false.
Proof. split; reflexivity. Qed.

Example int_of_str_example :
  int_of_str (lit " 1_024 ") = Ok 1024 /\ int_of_str (lit "-7") = Ok (-7) /\
  int_of_str (lit "12a") = Raise ValueError /\
  int_of_str (lit "") = Raise ValueError.
Proof. repeat split; reflexivity. Qed.

Example decode_example :
  decode [x63; xc3; xa9; xe2; x82; xac; xf0; x9f; x98; x80]
    = Ok [99%N; 233%N; 8364%N; 128512%N] /\
  decode [xc0; x80] = Raise UnicodeDecodeError /\
  decode [xed; xa0; x80] = Raise UnicodeDecodeError.
Proof. repeat split; reflexivity. Qed.

Example loads_example :
  Json.loads (Fixtures.text "{'a': [1, -2.5e3, true, null], 'a': 'x\u00e9'}")
    = Ok (VDict [(lit "a", VStr [120%N; 233%N])]) /\
  Json.loads (Fixtures.text " [1, 2] ")
    = Ok (VList [VInt 1; VInt 2]) /\
  Json.loads (Fixtures.text "[1,]") = Raise JSONDecodeError /\
  Json.loads (Fixtures.text "{'a': 1} x") = Raise JSONDecodeError /\
  Json.loads (Fixtures.text "01") = Raise JSONDecodeError /\
  Json.loads (lit "") = Raise JSONDecodeError.
Proof. repeat split; reflexivity. Qed.

(** ** The decoder always answers

    The fuel that [Json.loads] gives to [scan_once] is enough: each
    call reads at least one character before the next one. *)

Lemma whitespace_le (s : str) : (List.length (Json.whitespace s) <= List.length s)%nat.
Proof.
  induction s as [|c s IH]; cbn [Json.whitespace List.length]; [lia|].
  destruct (_ || _)%bool; cbn [List.length]; lia.
Qed.

Lemma scanstring_lt (n : nat) :
  forall s acc k r,
    (List.length s <= n)%nat ->
    Json.scanstring s acc = Some (k, r) ->
    (List.length r < List.length s)%nat.
Proof.
  induction n as [|n IH]; intros s acc k r Hn H.
  - destruct s; [discriminate H | cbn in Hn; lia].
  - destruct s as [|c s]; [discriminate H|].
    cbn [Json.scanstring] in H. cbn [List.length] in *.
    repeat match type of H with
           | Some _ = Some _ => injection H as <- <-
           | None = Some _ => discriminate H
           | Json.scanstring ?s' _ = Some _ =>
               apply IH in H; cbn [List.length] in *; lia
           | context [if ?b then _ else _] => destruct b
           | context [match ?x with _ => _ end] => destruct x; cbn [List.length] in *
           end; lia.
Qed.

Lemma digits_le (s : str) :
  (List.length (snd (Json.digits s)) <= List.length s)%nat.
Proof.
  induction s as [|c s IH]; cbn [Json.digits snd List.length]; [lia|].
  destruct (Json.isdigit c); [|cbn [snd List.length]; lia].
  destruct (Json.digits s) as [ds r]. cbn [snd] in *. lia.
Qed.

Lemma int_of_str_raises (s : str) (e : exn) :
  int_of_str s = Raise e -> e = ValueError.
Proof.
  unfold int_of_str.
  destruct (match strip s with
            | 45%N :: r => (true, r)
            | 43%N :: r => (false, r)
            | _ => (false, strip s)
            end) as [negative ds].
  destruct ds as [|d r]; [congruence|].
  destruct (digit d); [|congruence].
  destruct (int_digits _ _); [|congruence].
  destruct (_ >? _)%Z; congruence.
Qed.

Lemma sign_part_le (s : str) :
  (List.length (snd (Json.sign_part s)) <= List.length s)%nat.
Proof.
  unfold Json.sign_part.
  destruct s as [|c s]; [cbn; lia|].
  destruct c as [|p]; [cbn; lia|].
  repeat (destruct p; try (cbn [snd List.length]; lia)).
Qed.

Lemma integer_part_le (c : N) (s : str) :
  (List.length (snd (Json.integer_part c s)) <= List.length s)%nat.
Proof.
  unfold Json.integer_part. destruct (c =? 48)%N; [cbn; lia|].
  pose proof (digits_le s). destruct (Json.digits s). exact H.
Qed.

Lemma fraction_part_le (s : str) :
  (List.length (snd (Json.fraction_part s)) <= List.length s)%nat.
Proof.
  unfold Json.fraction_part.
  destruct s as [|c r]; [cbn; lia|].
  pose proof (digits_le r) as Hd. destruct (Json.digits r) as [ds r'].
  cbn [snd] in Hd.
  destruct c as [|p]; [cbn; lia|].
  repeat (destruct p; try (cbn [snd List.length]; lia)).
  destruct ds; cbn [snd List.length]; lia.
Qed.

Lemma exponent_part_le (s : str) :
  (List.length (snd (Json.exponent_part s)) <= List.length s)%nat.
Proof.
  unfold Json.exponent_part.
  destruct s as [|e r]; [cbn; lia|].
  destruct (_ || _)%bool; [|cbn; lia].
  destruct (match r with
            | x :: r'' =>
                if ((x =? 45) || (x =? 43))%N then ([x], r'') else ([], r)
            | [] => ([], r)
            end) as [esign r'] eqn:Es.
  assert (Hr' : (List.length r' <= List.length r)%nat).
  { destruct r as [|x r'']; [injection Es as <- <-; lia|].
    destruct (_ || _)%bool; injection Es as <- <-; cbn [List.length]; lia. }
  pose proof (digits_le r') as Hd. destruct (Json.digits r') as [ds r''].
  cbn [snd] in Hd. destruct ds; cbn [snd List.length]; lia.
Qed.

Lemma match_number_spec (s : str) :
  match Json.match_number s with
  | Ok (_, r) => (List.length r < List.length s)%nat
  | Raise e => e = JSONDecodeError \/ e = ValueError
  end.
Proof.
  unfold Json.match_number.
  pose proof (sign_part_le s) as H1.
  destruct (Json.sign_part s) as [sign s1]. cbn [snd] in H1.
  destruct s1 as [|c r1]; [now left|].
  destruct (Json.isdigit c); [|now left].
  pose proof (integer_part_le c r1) as H2.
  destruct (Json.integer_part c r1) as [int_part r2]. cbn [snd] in H2.
  pose proof (fraction_part_le r2) as H3.
  destruct (Json.fraction_part r2) as [frac r3]. cbn [snd] in H3.
  pose proof (exponent_part_le r3) as H4.
  destruct (Json.exponent_part r3) as [exponent r4]. cbn [snd] in H4.
  cbn [List.length] in H1.
  destruct frac, exponent; try lia.
  unfold Json.int_value.
  destruct (int_of_str (sign ++ int_part)) as [n|e] eqn:E; cbn [bind]; [lia|].
  right. exact (int_of_str_raises _ _ E).
Qed.

Lemma startswith_length (p s : str) :
  startswith p s = true -> (List.length p <= List.length s)%nat.
Proof.
  revert s. induction p as [|x p IH]; intros [|y s] H; cbn [List.length];
    try lia; [discriminate H|].
  cbn [startswith] in H. apply andb_true_iff in H as [_ H].
  specialize (IH s H). lia.
Qed.

Lemma lit_length (name : string) :
  List.length (lit name) = String.length name.
Proof.
  unfold lit. rewrite length_map. unfold list_byte_of_string.
  rewrite length_map.
  induction name as [|a name IH]; cbn; [reflexivity | now rewrite IH].
Qed.

Lemma constant_spec (name : string) (v : value) (s : str) (x : result (value * str)) :
  (0 < String.length name)%nat ->
  Json.constant name v s = Some x ->
  exists r, x = Ok (v, r) /\ (List.length r < List.length s)%nat.
Proof.
  unfold Json.constant. intros Hname.
  destruct (startswith (lit name) s) eqn:E; [|discriminate].
  intros [= <-]. eexists. split; [reflexivity|].
  apply startswith_length in E. rewrite lit_length in E.
  rewrite length_skipn. lia.
Qed.

Lemma progresses_longer (s1 s2 : str) (x : result (value * str)) :
  (List.length s1 <= List.length s2)%nat -> progresses s1 x -> progresses s2 x.
Proof. destruct x as [[v r]|e]; cbn; [lia | auto]. Qed.

(** Splits on the code point [d] as far as the goal matches on it. *)
Ltac split_code d :=
  destruct d as [|?p];
  [| repeat match goal with
            | |- context [match ?q with xI _ => _ | xO _ => _ | xH => _ end] =>
                is_var q; destruct q; cbv iota
            end].

Lemma fuel_suffices (fuel : nat) :
  (forall s, (2 * List.length s + 1 <= fuel)%nat ->
             progresses s (Json.scan_once fuel s)) /\
  (forall s acc, (2 * List.length s + 1 <= fuel)%nat ->
                 progresses s (Json.object_items fuel s acc)) /\
  (forall s acc, (2 * List.length s + 2 <= fuel)%nat ->
                 progresses s (Json.array_items fuel s acc)).
Proof.
  induction fuel as [|fuel (IHscan & IHobj & IHarr)].
  { repeat split; intros; lia. }
  split; [|split].
  - intros [|c r] Hf; [now left|].
    cbn [Json.scan_once List.length] in *.
    destruct (c =? 34)%N.
    { destruct (Json.scanstring r []) as [[text r']|] eqn:E;
        cbn [Json.result_of bind progresses]; [|now left].
      apply (scanstring_lt _ _ _ _ _ (le_n _)) in E. cbn [List.length]. lia. }
    destruct (c =? 123)%N.
    { pose proof (whitespace_le r) as Hw.
      destruct (Json.whitespace r) as [|d w] eqn:Ew.
      - apply (progresses_longer []); [cbn; lia|]. apply IHobj. cbn. lia.
      - cbn [List.length] in Hw.
        assert (Hobj : progresses (c :: r) (Json.object_items fuel (d :: w) [])).
        { apply (progresses_longer (d :: w)); [cbn [List.length]; lia|].
          apply IHobj. cbn [List.length]. lia. }
        split_code d; try exact Hobj.
        cbn [progresses List.length]. lia. }
    destruct (c =? 91)%N.
    { pose proof (whitespace_le r) as Hw.
      destruct (Json.whitespace r) as [|d w] eqn:Ew.
      - apply (progresses_longer []); [cbn; lia|]. apply IHarr. cbn. lia.
      - cbn [List.length] in Hw.
        assert (Harr : progresses (c :: r) (Json.array_items fuel (d :: w) [])).
        { apply (progresses_longer (d :: w)); [cbn [List.length]; lia|].
          apply IHarr. cbn [List.length]. lia. }
        split_code d; try exact Harr.
        cbn [progresses List.length]. lia. }
    repeat match goal with
           | |- context [Json.constant ?name ?v ?s] =>
               let E := fresh "E" in
               destruct (Json.constant name v s) as [x|] eqn:E;
               [ apply constant_spec in E; [|cbn; lia];
                 destruct E as (r' & -> & Hr'); exact Hr' |]
           end.
    apply match_number_spec.
  - intros [|c r] acc Hf; [now left|].
    cbn [Json.object_items]. cbn [List.length] in Hf.
    split_code c; try (now left).
    destruct (Json.scanstring r []) as [[key r1]|] eqn:E;
      cbn [Json.result_of bind]; [|now left].
    apply (scanstring_lt _ _ _ _ _ (le_n _)) in E.
    pose proof (whitespace_le r1) as Hw1.
    destruct (Json.whitespace r1) as [|d w]; [now left|].
    cbn [List.length] in Hw1.
    split_code d; try (now left).
    pose proof (whitespace_le w) as Hw2.
    assert (Hv : progresses (Json.whitespace w)
                   (Json.scan_once fuel (Json.whitespace w))).
    { apply IHscan. lia. }
    destruct (Json.scan_once fuel (Json.whitespace w)) as [[v r3]|e];
      cbn [bind]; cbn [progresses] in Hv; [|exact Hv].
    pose proof (whitespace_le r3) as Hw3.
    destruct (Json.whitespace r3) as [|d2 w2]; [now left|].
    cbn [List.length] in Hw3.
    split_code d2; try (now left);
      try (cbn [progresses List.length]; lia).
    pose proof (whitespace_le w2) as Hw4.
    apply (progresses_longer (Json.whitespace w2)); [cbn [List.length]; lia|].
    apply IHobj. lia.
  - intros s acc Hf. cbn [Json.array_items].
    assert (Hv : progresses s (Json.scan_once fuel s)).
    { apply IHscan. lia. }
    destruct (Json.scan_once fuel s) as [[v r]|e];
      cbn [bind]; cbn [progresses] in Hv; [|exact Hv].
    pose proof (whitespace_le r) as Hw.
    destruct (Json.whitespace r) as [|d w]; [now left|].
    cbn [List.length] in Hw.
    split_code d; try (now left); try (cbn [progresses]; lia).
    pose proof (whitespace_le w) as Hw2.
    apply (progresses_longer (Json.whitespace w)); [lia|].
    apply IHarr. lia.
Qed.

(** [Json.loads] returns a value, or raises [JSONDecodeError], or
    raises the [ValueError] of an integer with too many digits. *)
Theorem loads_answers (s : str) :
  (exists v, Json.loads s = Ok v) \/
  Json.loads s = Raise JSONDecodeError \/ Json.loads s = Raise ValueError.
Proof.
  unfold Json.loads. destruct (startswith _ s); [now right; left|].
  pose proof (whitespace_le s) as Hw.
  pose proof (proj1 (fuel_suffices (2 * List.length s + 2))
                    (Json.whitespace s)) as H.
  destruct (Json.scan_once _ _) as [[obj r]|e]; cbn [bind progresses] in *.
  - destruct (Json.whitespace r); [left; eexists; reflexivity | now right; left].
  - right. destruct H as [-> | ->]; [lia | now left | now right].
Qed.

(** ** Auxiliary facts *)

Lemma not_len (s : str) : not_ s = true <-> len s = 0.
Proof.
  unfold len. destruct s as [|c s]; cbn [not_ List.length].
  - split; reflexivity.
  - split; [discriminate | lia].
Qed.

Lemma len_nonneg (s : str) : 0 <= len s.
Proof. unfold len. lia. Qed.



Lemma mbind_lift_Ok {A B : Type} (a : A) (k : A -> M B) :
  mbind (lift (Ok a)) k = k a.
Proof. unfold mbind, lift. destruct (k a). reflexivity. Qed.

Section HandlerFacts.

Variable json_loads : str -> result value.
Variable srv : server.

(** Past the JSON check, [do_POST] is [analyze] on the parsed body. *)
Lemma do_POST_body_parsed (req : request) (data : value) :
  body_parses_as json_loads req data ->
  do_POST_body json_loads srv req = analyze json_loads srv data.
Proof.
  intros (Hct & n & Hlen & Hn0 & Hmax & Hbody).
  unfold do_POST_body. rewrite Hct. cbn [negb].
  rewrite Hlen, mbind_lift_Ok.
  destruct (Z.eqb_spec n 0) as [|_]; [contradiction|].
  destruct (Z.gtb_spec n 10485760); [lia|].
  rewrite Hbody. reflexivity.
Qed.

(** With the trimmed ticket at hand, [analyze] is the two length tests and
    the client test. *)
Lemma analyze_ticket (data : value) (ticket : str) :
  bind (get data (lit "ticket") (VStr (lit ""))) strip_method = Ok ticket ->
  analyze json_loads srv data =
    if not_ ticket then
      ret (send_json_response 400 (error "Missing or empty 'ticket' field"))
    else if len ticket >? MAX_TICKET_LENGTH then
      ret (send_json_response 400 (VDict [(lit "error", VStr (
        lit "Ticket exceeds maximum length of " ++ str_of_int MAX_TICKET_LENGTH
        ++ lit " characters"))]))
    else match bedrock_client srv with
         | None =>
             ret (send_json_response 503 (error "Bedrock service unavailable"))
         | Some c => call_bedrock json_loads c data ticket
         end.
Proof.
  intros H. unfold analyze. rewrite H, mbind_lift_Ok. reflexivity.
Qed.

Lemma do_POST_body_validated (req : request) (data : value) (ticket : str) :
  validated json_loads req data ticket ->
  do_POST_body json_loads srv req =
    match bedrock_client srv with
    | None =>
        ret (send_json_response 503 (error "Bedrock service unavailable"))
    | Some c => call_bedrock json_loads c data ticket
    end.
Proof.
  intros (Hp & Ht & Hlo & Hhi).
  rewrite (do_POST_body_parsed req data Hp), (analyze_ticket data ticket Ht).
  destruct (not_ ticket) eqn:E.
  - apply not_len in E. lia.
  - destruct (Z.gtb_spec (len ticket) MAX_TICKET_LENGTH); [lia | reflexivity].
Qed.

Lemma mbind_lift {A B : Type} (r : result A) (k : A -> M B) :
  mbind (lift r) k = match r with Ok a => k a | Raise e => raise e end.
Proof. destruct r; [apply mbind_lift_Ok | reflexivity]. Qed.

Lemma bedrock_except_calls (e : exn) : snd (bedrock_except e) = [].
Proof.
  destruct e; try reflexivity. unfold bedrock_except.
  destruct (contains _ _); [reflexivity|].
  destruct (contains _ _); reflexivity.
Qed.

(** [call_bedrock] calls the client once, and answers with what the
    reply or the [except] clauses yield. *)
Lemma call_bedrock_eq (c : client) (data : value) (ticket : str) :
  call_bedrock json_loads c data ticket =
    match bind (invoke_model c (invocation ticket))
               (reply_outcome json_loads data) with
    | Ok sent => (Ok sent, [invocation ticket])
    | Raise e => (fst (bedrock_except e), [invocation ticket])
    end.
Proof.
  assert (Hexc : forall e,
    (let '(r, calls') := bedrock_except e in (r, [invocation ticket] ++ calls'))
    = (fst (bedrock_except e), [invocation ticket])).
  { intros e. pose proof (bedrock_except_calls e) as Hc.
    destruct (bedrock_except e) as [r calls']. cbn [snd fst] in *.
    rewrite Hc. reflexivity. }
  unfold call_bedrock, call, reply_outcome.
  destruct (invoke_model c (invocation ticket)) as [reply|e]; cbn [bind].
  2:{ unfold try_except, mbind. apply Hexc. }
  unfold mbind at 1. rewrite mbind_lift.
  destruct (assistant_message_of json_loads reply) as [message|e]; cbn [bind].
  2:{ unfold raise, try_except. apply Hexc. }
  rewrite mbind_lift.
  destruct (match json_loads_value json_loads message with
            | Raise JSONDecodeError => Ok (VDict [(lit "analysis", message)])
            | r => r
            end) as [analysis|e]; cbn [bind].
  2:{ unfold raise, try_except. apply Hexc. }
  rewrite mbind_lift.
  destruct (get data (lit "ticket_id") (VStr (lit "N/A"))) as [tid|e];
    cbn [bind].
  2:{ unfold raise, try_except. apply Hexc. }
  reflexivity.
Qed.

Lemma bedrock_except_status (e : exn) (sent : response) :
  fst (bedrock_except e) = Ok sent ->
  status_code sent = 429 \/ status_code sent = 403 \/ status_code sent = 502.
Proof.
  destruct e; try discriminate; unfold bedrock_except.
  - destruct (contains _ _); [intros [= <-]; auto|].
    destruct (contains _ _); intros [= <-]; auto.
  - intros [= <-]; auto.
Qed.



Lemma reply_outcome_inv (data : value) (reply : invoke_response)
    (sent : response) :
  reply_outcome json_loads data reply = Ok sent ->
  exists ticket_id analysis,
    get data (lit "ticket_id") (VStr (lit "N/A")) = Ok ticket_id /\
    sent = send_json_response 200 (VDict [
             (lit "ticket_id", ticket_id); (lit "analysis", analysis)]).
Proof.
  unfold reply_outcome.
  destruct (assistant_message_of json_loads reply); [|discriminate].
  cbn [bind].
  destruct (match json_loads_value json_loads a with
            | Raise JSONDecodeError => _ | r => r end) as [analysis|];
    [|discriminate].
  cbn [bind]. destruct (get data _ _) as [tid|]; [|discriminate].
  cbn [bind]. intros [= <-]. exists tid, analysis. split; reflexivity.
Qed.

(** A request is validated, or it is answered without any call to the
    client and with a status other than 200. *)
Lemma do_POST_body_inv (req : request) :
  (exists data ticket, validated json_loads req data ticket) \/
  (snd (do_POST json_loads srv req) = [] /\
   status_code (fst (do_POST json_loads srv req)) <> 200).
Proof.
  unfold do_POST, do_POST_body.
  destruct (contains (lit "application/json") (content_type_of req)) eqn:Hct;
    cbn [negb]; [|right; split; [reflexivity | discriminate]].
  destruct (content_length_of req) as [n|e] eqn:Hlen; rewrite mbind_lift;
    [|right; split; [reflexivity | discriminate]].
  destruct (Z.eqb_spec n 0) as [|Hn0];
    [right; split; [reflexivity | discriminate]|].
  destruct (Z.gtb_spec n 10485760) as [|Hmax];
    [right; split; [reflexivity | discriminate]|].
  destruct (bind (decode (read (rfile req) n)) json_loads) as [data|e] eqn:Hb;
    [|destruct e; right; split; solve [reflexivity | discriminate]].
  assert (Hp : body_parses_as json_loads req data).
  { split; [exact Hct | exists n; auto]. }
  unfold analyze.
  destruct (bind (get data (lit "ticket") (VStr (lit ""))) strip_method)
    as [ticket|e] eqn:Ht; rewrite mbind_lift;
    [|right; split; [reflexivity | discriminate]].
  destruct (not_ ticket) eqn:Hempty;
    [right; split; [reflexivity | discriminate]|].
  destruct (Z.gtb_spec (len ticket) MAX_TICKET_LENGTH) as [|Hle];
    [right; split; [reflexivity | discriminate]|].
  left. exists data, ticket. split; [exact Hp | split; [exact Ht|]].
  split; [|exact Hle].
  pose proof (len_nonneg ticket). pose proof (proj2 (not_len ticket)).
  destruct (Z.eq_dec (len ticket) 0) as [E|]; [|lia].
  rewrite (H0 E) in Hempty. discriminate.
Qed.

(** The message of the sixth check, with the limit written out *)
Lemma too_long_message :
  VDict [(lit "error", VStr (
    lit "Ticket exceeds maximum length of " ++ str_of_int MAX_TICKET_LENGTH
    ++ lit " characters"))]
  = error "Ticket exceeds maximum length of 5000 characters".
Proof. reflexivity. Qed.

End HandlerFacts.

(** ** The inference call *)





(** ** Validation *)











(** ** The client, the ticket id, the health probe, untyped bodies *)



(** C8: in every 200 response the [ticket_id] field is the [ticket_id]
    of the request body, as it was given, when the body has one, and
    the default "N/A" when it has none. *)
Theorem C8_ticket_id_echoed_or_defaulted
    (json_loads : str -> result value) (srv : server) (req : request) :
  status_code (fst (do_POST json_loads srv req)) = 200 ->
  exists items,
    body_parses_as json_loads req (VDict items) /\
    (forall supplied,
       dict_lookup items (lit "ticket_id") = Some supplied ->
       field (fst (do_POST json_loads srv req)) "ticket_id" = Some supplied) /\
    (dict_lookup items (lit "ticket_id") = None ->
       field (fst (do_POST json_loads srv req)) "ticket_id"
         = Some (VStr (lit "N/A"))).
Proof.
  intros H200.
  destruct (do_POST_body_inv json_loads srv req)
    as [(data & ticket & Hv) | [_ Hne]]; [|contradiction].
  pose proof Hv as (Hp & Ht & _).
  destruct data as [ | | | | | |items]; try discriminate Ht.
  exists items. split; [exact Hp|].
  revert H200. unfold do_POST.
  rewrite (do_POST_body_validated json_loads srv req _ ticket Hv).
  destruct (bedrock_client srv) as [c|]; [|discriminate].
  rewrite call_bedrock_eq.
  destruct (bind (invoke_model c (invocation ticket))
                 (reply_outcome json_loads (VDict items))) as [sent|e] eqn:E.
  - intros _. cbn [fst].
    destruct (invoke_model c (invocation ticket)) as [reply|];
      [|discriminate].
    destruct (reply_outcome_inv json_loads _ _ _ E)
      as (tid & analysis & Hget & ->).
    unfold get in Hget. unfold field. cbn [data send_json_response].
    change (dict_lookup _ (lit "ticket_id")) with (Some tid) at 2 4.
    destruct (dict_lookup items (lit "ticket_id")) as [v|];
      injection Hget as <-; split; congruence.
  - pose proof (bedrock_except_status e) as Hs.
    destruct (fst (bedrock_except e)) as [sent|]; cbn [fst];
      [|discriminate].
    intros H200. destruct (Hs sent eq_refl) as [H|[H|H]]; congruence.
Qed.

Lemma C8_ticket_id_echoed_or_defaulted_witness :
  let reply := Fixtures.quoted
    "{'output':{'message':{'content':[{'text':'{\'severity\':\'high\'}'}]}}}" in
  let live := mk_server (Some (Fixtures.replying reply)) in
  let req := Fixtures.post "52" (Fixtures.quoted
    "{'ticket':'I cannot login','ticket_id':'TICKET-001'}") in
  exists items,
    body_parses_as Json.loads req (VDict items) /\
    (forall supplied,
       dict_lookup items (lit "ticket_id") = Some supplied ->
       field (fst (do_POST Json.loads live req)) "ticket_id" = Some supplied) /\
    (dict_lookup items (lit "ticket_id") = None ->
       field (fst (do_POST Json.loads live req)) "ticket_id"
         = Some (VStr (lit "N/A"))).
Proof.
  intros reply live req.
  apply (C8_ticket_id_echoed_or_defaulted Json.loads live req).
  vm_compute. reflexivity.
Defined.

(** C9: a GET of /health answers 200 with [status] "healthy" whatever
    the state of the inference client, configured or not; a GET of any
    other path answers 404 with the body [{"error": "Not found"}]. *)
Theorem C9_health_and_not_found (srv : server) (utcnow : str) (req : request) :
  (path req = "/health"%string ->
     status_code (do_GET srv utcnow req) = 200 /\
     field (do_GET srv utcnow req) "status" = Some (VStr (lit "healthy"))) /\
  (path req <> "/health"%string ->
     do_GET srv utcnow req = send_json_response 404 (error "Not found")).
Proof.
  unfold do_GET. split; intros H.
  - rewrite H. split; reflexivity.
  - apply String.eqb_neq in H. rewrite H. reflexivity.
Qed.

Lemma C9_health_and_not_found_witness :
  let down := mk_server None in
  let now := lit "2024-05-01T12:00:00.000000" in
  let probe p := mk_request p None None [] in
  (status_code (do_GET down now (probe "/health"%string)) = 200 /\
   field (do_GET down now (probe "/health"%string)) "status"
     = Some (VStr (lit "healthy"))) /\
  do_GET down now (probe "/health/"%string)
    = send_json_response 404 (error "Not found").
Proof.
  intros down now probe. split.
  - apply (C9_health_and_not_found down now (probe "/health"%string)).
    reflexivity.
  - apply (C9_health_and_not_found down now (probe "/health/"%string)).
    discriminate.
Defined.

(** C10: a body that passes the content-type, length and JSON checks
    but is not an object, or is an object whose [ticket] is not a
    string, is answered 500 "Internal server error", not 400; the
    client is not called. *)
Theorem C10_untyped_body_is_500
    (json_loads : str -> result value) (srv : server) (req : request)
    (data : value) :
  body_parses_as json_loads req data ->
  (forall items, data <> VDict items) \/
  (exists items v, data = VDict items /\
     dict_lookup items (lit "ticket") = Some v /\ forall s, v <> VStr s) ->
  do_POST json_loads srv req =
    (send_json_response 500 (error "Internal server error"), []).
Proof.
  intros Hp Hshape. unfold do_POST.
  rewrite (do_POST_body_parsed json_loads srv req data Hp). unfold analyze.
  assert (E : exists e, bind (get data (lit "ticket") (VStr (lit "")))
                             strip_method = Raise e).
  { destruct Hshape as [Hnot | (items & v & -> & Hl & Hv)].
    - destruct data; try (eexists; reflexivity).
      exfalso. exact (Hnot _ eq_refl).
    - unfold get. rewrite Hl. cbn [bind].
      destruct v; try (eexists; reflexivity).
      exfalso. exact (Hv _ eq_refl). }
  destruct E as [e ->]. reflexivity.
Qed.

Lemma C10_untyped_body_is_500_witness :
  do_POST Json.loads (mk_server None)
          (Fixtures.post "6" (Fixtures.quoted "[1, 2]")) =
    (send_json_response 500 (error "Internal server error"), []) /\
  do_POST Json.loads (mk_server None)
          (Fixtures.post "13" (Fixtures.quoted "{'ticket':42}")) =
    (send_json_response 500 (error "Internal server error"), []).
Proof.
  split.
  - apply (C10_untyped_body_is_500 Json.loads _ _ (VList [VInt 1; VInt 2])).
    + split; [reflexivity | exists 6; repeat split; try lia; reflexivity].
    + left. discriminate.
  - apply (C10_untyped_body_is_500 Json.loads _ _
             (VDict [(lit "ticket", VInt 42)])).
    + split; [reflexivity | exists 13; repeat split; try lia; reflexivity].
    + right. exists [(lit "ticket", VInt 42)], (VInt 42).
      split; [reflexivity | split; [reflexivity | discriminate]].
Defined.

(** ** The end-to-end example of the specification *)

Example end_to_end :
  let reply := Fixtures.quoted
    "{'output':{'message':{'content':[{'text':'{\'summary\':\'Login failure\',\'severity\':\'high\',\'category\':\'technical\',\'suggested_response\':\'Please reset your password...\'}'}]}}}" in
  let req := Fixtures.post "55" (Fixtures.quoted
    "{'ticket':'I cannot login...','ticket_id':'TICKET-001'}") in
  do_POST Json.loads (mk_server (Some (Fixtures.replying reply))) req =
    (send_json_response 200 (VDict [
       (lit "ticket_id", VStr (lit "TICKET-001"));
       (lit "analysis", VDict [
          (lit "summary", VStr (lit "Login failure"));
          (lit "severity", VStr (lit "high"));
          (lit "category", VStr (lit "technical"));
          (lit "suggested_response",
           VStr (lit "Please reset your password..."))])]),
     [invocation (lit "I cannot login...")]).
Proof. vm_compute. reflexivity. Qed.

(** ** Further properties of [do_POST] *)

(** Every answer of [do_POST] is a 200 that carries [ticket_id] and
    [analysis] and nothing else, or one of the twelve fixed error
    answers: no text of the request, of the reply or of an exception
    reaches an error body. *)
Theorem do_POST_answer_shape
    (json_loads : str -> result value) (srv : server) (req : request) :
  let sent := fst (do_POST json_loads srv req) in
  (exists ticket_id analysis,
     sent = send_json_response 200
              (VDict [(lit "ticket_id", ticket_id);
                      (lit "analysis", analysis)])) \/
  (exists status message,
     In (status, message) error_answers /\
     sent = send_json_response status (error message)).
Proof.
  assert (Herr : forall status message,
    In (status, message) error_answers ->
    (exists ticket_id analysis,
       send_json_response status (error message) =
       send_json_response 200
         (VDict [(lit "ticket_id", ticket_id); (lit "analysis", analysis)])) \/
    (exists status' message',
       In (status', message') error_answers /\
       send_json_response status (error message) =
       send_json_response status' (error message'))).
  { intros status message Hin. right. exists status, message. auto. }
  unfold do_POST, do_POST_body.
  destruct (contains (lit "application/json") (content_type_of req));
    cbn [negb]; [|apply Herr; cbn; auto 20].
  destruct (content_length_of req) as [n|e]; rewrite mbind_lift;
    [|apply Herr; cbn; auto 20].
  destruct (n =? 0); [apply Herr; cbn; auto 20|].
  destruct (n >? 10485760); [apply Herr; cbn; auto 20|].
  destruct (bind (decode (read (rfile req) n)) json_loads) as [data|e];
    [|destruct e; apply Herr; cbn; auto 20].
  unfold analyze.
  destruct (bind (get data (lit "ticket") (VStr (lit ""))) strip_method)
    as [ticket|e]; rewrite mbind_lift; [|apply Herr; cbn; auto 20].
  destruct (not_ ticket); [apply Herr; cbn; auto 20|].
  destruct (len ticket >? MAX_TICKET_LENGTH);
    [rewrite too_long_message; apply Herr; cbn; auto 20|].
  destruct (bedrock_client srv) as [c|];
    [|apply Herr; cbn; auto 20].
  rewrite call_bedrock_eq.
  destruct (bind (invoke_model c (invocation ticket))
                 (reply_outcome json_loads data)) as [sent|e] eqn:E.
  - destruct (invoke_model c (invocation ticket)) as [reply|];
      [|discriminate E].
    destruct (reply_outcome_inv json_loads _ _ _ E)
      as (tid & analysis & _ & ->).
    left. exists tid, analysis. reflexivity.
  - destruct e; try (apply Herr; cbn; auto 20).
    unfold bedrock_except.
    destruct (contains _ _); [apply Herr; cbn; auto 20|].
    destruct (contains _ _); apply Herr; cbn; auto 20.
Qed.

Section MoreHandlerFacts.

Variable json_loads : str -> result value.
Variable srv : server.

(** A validated request with a client configured makes its one call,
    whatever comes of it. *)
Lemma validated_calls (req : request) (data : value) (ticket : str)
    (c : client) :
  validated json_loads req data ticket ->
  bedrock_client srv = Some c ->
  snd (do_POST json_loads srv req) = [invocation ticket].
Proof.
  intros Hv Hc. unfold do_POST.
  rewrite (do_POST_body_validated json_loads srv req data ticket Hv), Hc.
  rewrite call_bedrock_eq.
  destruct (bind (invoke_model c (invocation ticket))
                 (reply_outcome json_loads data)); [reflexivity|].
  destruct (fst (bedrock_except e)); reflexivity.
Qed.



End MoreHandlerFacts.




Theorem undecodable_body_is_500
    (json_loads : str -> result value) (srv : server) (req : request)
    (n : Z) (e : exn) :
  contains (lit "application/json") (content_type_of req) = true ->
  content_length_of req = Ok n -> n <> 0 -> n <= 10485760 ->
  bind (decode (read (rfile req) n)) json_loads = Raise e ->
  e <> JSONDecodeError ->
  do_POST json_loads srv req =
    (send_json_response 500 (error "Internal server error"), []).
Proof.
  intros Hct Hlen Hn0 Hmax Hb He. unfold do_POST, do_POST_body.
  rewrite Hct, Hlen, mbind_lift_Ok. cbn [negb].
  destruct (Z.eqb_spec n 0); [contradiction|].
  destruct (Z.gtb_spec n 10485760); [lia|].
  rewrite Hb. destruct e; try reflexivity. contradiction He. reflexivity.
Qed.

Lemma undecodable_body_is_500_witness :
  do_POST Json.loads (mk_server None)
          (Fixtures.post "15" (Fixtures.quoted "{'ticket':'caf" ++ [xe9]
                               ++ Fixtures.quoted "'}")) =
    (send_json_response 500 (error "Internal server error"), []).
Proof.
  apply (undecodable_body_is_500 Json.loads _ _ 15 UnicodeDecodeError);
    try reflexivity; discriminate.
Defined.

(** The stream matters only through what [read] returns. *)
Theorem do_POST_reads_declared_bytes_only
    (json_loads : str -> result value) (srv : server) (req req' : request)
    (n : Z) :
  Content_Type req' = Content_Type req ->
  Content_Length req' = Content_Length req ->
  content_length_of req = Ok n ->
  read (rfile req') n = read (rfile req) n ->
  do_POST json_loads srv req' = do_POST json_loads srv req.
Proof.
  intros Hct Hcl Hlen Hread.
  assert (Hlen' : content_length_of req' = Ok n).
  { unfold content_length_of in *. rewrite Hcl. exact Hlen. }
  unfold do_POST, do_POST_body, content_type_of.
  rewrite Hct, Hlen, Hlen', !mbind_lift_Ok, Hread. reflexivity.
Qed.

Lemma do_POST_reads_declared_bytes_only_witness :
  do_POST Json.loads (mk_server None)
    (Fixtures.post "15" (Fixtures.quoted "{'ticket':'hi'}, 'ticket':'' }")) =
  do_POST Json.loads (mk_server None)
    (Fixtures.post "15" (Fixtures.quoted "{'ticket':'hi'}")).
Proof.
  apply (do_POST_reads_declared_bytes_only Json.loads _ _ _ 15);
    reflexivity.
Defined.



(** *** [str.strip] *)

Lemma lstrip_split (s : str) :
  exists a, s = a ++ lstrip s /\ forallb isspace a = true.
Proof.
  induction s as [|c s (a & IH & Ha)]; [exists []; split; reflexivity|].
  cbn [lstrip]. destruct (isspace c) eqn:E.
  - exists (c :: a). cbn [app forallb]. rewrite E, Ha, <- IH.
    split; reflexivity.
  - exists []. split; reflexivity.
Qed.

Lemma lstrip_head (s : str) (c : N) (r : str) :
  lstrip s = c :: r -> isspace c = false.
Proof.
  induction s as [|x s IH]; [discriminate|].
  cbn [lstrip]. destruct (isspace x) eqn:E; [exact IH|].
  intros [= <- _]. exact E.
Qed.

Lemma lstrip_fixed (s : str) :
  match s with c :: _ => isspace c = false | [] => True end ->
  lstrip s = s.
Proof.
  destruct s as [|c s]; [reflexivity|]. cbn [lstrip]. intros ->. reflexivity.
Qed.

Lemma forallb_isspace_rev (a : str) :
  forallb isspace a = true -> forallb isspace (rev a) = true.
Proof.
  intros H. apply forallb_forall. intros x Hx. apply in_rev in Hx.
  exact (proj1 (forallb_forall isspace a) H x Hx).
Qed.

(** [s.strip()] is [s] without a run of whitespace at each end, and
    begins and ends with a character that is not whitespace. *)
Lemma strip_spec (s : str) :
  (exists a b, s = a ++ strip s ++ b /\
               forallb isspace a = true /\ forallb isspace b = true) /\
  (forall c r, strip s = c :: r -> isspace c = false) /\
  (forall r c, strip s = r ++ [c] -> isspace c = false).
Proof.
  unfold strip, rstrip.
  destruct (lstrip_split s) as (a & Hs & Ha).
  destruct (lstrip_split (rev (lstrip s))) as (b & Hr & Hb).
  set (y := lstrip s) in *. set (z := lstrip (rev y)) in *.
  assert (Hy : y = rev z ++ rev b).
  { rewrite <- (rev_involutive y), Hr, rev_app_distr. reflexivity. }
  split; [|split].
  - exists a, (rev b). split; [rewrite <- Hy; exact Hs|].
    split; [exact Ha|]. apply forallb_isspace_rev. exact Hb.
  - intros c r Hc.
    apply (lstrip_head s c (r ++ rev b)). fold y. rewrite Hy, Hc. reflexivity.
  - intros r c Hc.
    apply (lstrip_head (rev y) c (rev r)). fold z.
    rewrite <- (rev_involutive z), Hc, rev_app_distr. reflexivity.
Qed.

Lemma strip_idempotent (s : str) : strip (strip s) = strip s.
Proof.
  destruct (strip_spec s) as (_ & Hhead & Hlast).
  set (t := strip s) in *. unfold strip at 1, rstrip.
  rewrite (lstrip_fixed t).
  2:{ destruct t as [|c r]; [exact I | exact (Hhead c r eq_refl)]. }
  rewrite (lstrip_fixed (rev t)); [apply rev_involutive|].
  destruct (rev t) as [|c r] eqn:E; [exact I|].
  apply (Hlast (rev r) c). rewrite <- (rev_involutive t), E. reflexivity.
Qed.

(** Each call carries the ticket of the request, trimmed. *)
Theorem invoked_ticket_is_trimmed
    (json_loads : str -> result value) (srv : server) (req : request)
    (args : invoke_args) :
  In args (snd (do_POST json_loads srv req)) ->
  exists items text,
    body_parses_as json_loads req (VDict items) /\
    dict_lookup items (lit "ticket") = Some (VStr text) /\
    args = invocation (strip text) /\
    (exists a b, text = a ++ strip text ++ b /\
                 forallb isspace a = true /\ forallb isspace b = true) /\
    (exists c r, strip text = c :: r /\ isspace c = false) /\
    (exists r c, strip text = r ++ [c] /\ isspace c = false).
Proof.
  intros Hin.
  destruct (do_POST_body_inv json_loads srv req)
    as [(data & ticket & Hv) | [Hnil _]];
    [|rewrite Hnil in Hin; destruct Hin].
  pose proof Hv as (Hp & Ht & Hpos & _).
  destruct data as [ | | | | | |items]; try discriminate Ht.
  unfold get in Ht.
  destruct (dict_lookup items (lit "ticket")) as [v|] eqn:Hl.
  2:{ injection Ht as <-. cbn in Hpos. lia. }
  destruct v as [ | | | |text| | ]; try discriminate Ht.
  injection Ht as <-.
  exists items, text. split; [exact Hp|]. split; [exact Hl|].
  destruct (strip_spec text) as (Hseg & Hhead & Hlast).
  split; [|split; [exact Hseg|split]].
  - destruct (bedrock_client srv) as [c|] eqn:Hc.
    + rewrite (validated_calls json_loads srv req _ _ c Hv Hc) in Hin.
      destruct Hin as [<- | []]. reflexivity.
    + revert Hin. unfold do_POST.
      rewrite (do_POST_body_validated json_loads srv req _ _ Hv), Hc.
      intros [].
  - destruct (strip text) as [|c r] eqn:E; [cbn in Hpos; lia|].
    exists c, r. split; [reflexivity | exact (Hhead c r eq_refl)].
  - destruct (strip text) as [|c r] eqn:E; [cbn in Hpos; lia|].
    destruct (exists_last (l := c :: r)) as (r' & c' & Hr'); [discriminate|].
    exists r', c'. split; [exact Hr' | exact (Hlast r' c' Hr')].
Qed.

Lemma invoked_ticket_is_trimmed_witness :
  let req := Fixtures.post "28" (Fixtures.quoted "{'ticket':'  disk\tfull \n'}") in
  let srv := mk_server (Some (Fixtures.failing BotoCoreError)) in
  exists items text,
    body_parses_as Json.loads req (VDict items) /\
    dict_lookup items (lit "ticket") = Some (VStr text) /\
    invocation (lit "disk" ++ [9%N] ++ lit "full") = invocation (strip text) /\
    (exists a b, text = a ++ strip text ++ b /\
                 forallb isspace a = true /\ forallb isspace b = true) /\
    (exists c r, strip text = c :: r /\ isspace c = false) /\
    (exists r c, strip text = r ++ [c] /\ isspace c = false).
Proof.
  intros req srv.
  apply (invoked_ticket_is_trimmed Json.loads srv req).
  left. vm_compute. reflexivity.
Defined.




(** ** The test of the content type *)

Lemma lit_app (a b : string) : lit (a ++ b)%string = lit a ++ lit b.
Proof.
  unfold lit, list_byte_of_string. rewrite <- !List.map_app. f_equal. f_equal.
  induction a as [|c a IH]; [reflexivity|].
  cbn [String.append list_ascii_of_string List.app]. rewrite IH. reflexivity.
Qed.

Lemma startswith_app (p s : str) : startswith p (p ++ s) = true.
Proof.
  induction p as [|x p IH]; [reflexivity|].
  cbn [List.app startswith]. rewrite N.eqb_refl, IH. reflexivity.
Qed.

Lemma contains_app (needle before after : str) :
  contains needle (before ++ needle ++ after) = true.
Proof.
  induction before as [|x before IH].
  - cbn [List.app].
    pose proof (startswith_app needle after) as H.
    destruct (needle ++ after) as [|y rest]; cbn [contains]; rewrite H;
      reflexivity.
  - cbn [List.app contains]. rewrite IH. apply orb_true_r.
Qed.

(** The content type is tested for a substring: a request whose
    [Content-Type] has [application/json] anywhere in it is answered
    as the same request with exactly that content type. *)
Theorem content_type_is_tested_for_a_substring
    (json_loads : str -> result value) (srv : server) (req : request)
    (before after : string) :
  Content_Type req = Some (before ++ "application/json" ++ after)%string ->
  do_POST json_loads srv req
  = do_POST json_loads srv
      (mk_request (path req) (Some "application/json"%string)
                  (Content_Length req) (rfile req)).
Proof.
  intros Hct. unfold do_POST, do_POST_body, content_type_of, content_length_of.
  cbn [Content_Type Content_Length rfile]. rewrite Hct, !lit_app.
  rewrite contains_app.
  change (contains (lit "application/json") (lit "application/json")) with true.
  reflexivity.
Qed.

Lemma content_type_is_tested_for_a_substring_witness :
  let req := mk_request "/" (Some "text/x-application/jsonp; charset=latin-1"%string)
               (Some "28"%string)
               (Fixtures.quoted "{'ticket':'printer on fire'}") in
  let srv := mk_server None in
  Content_Type req
  = Some ("text/x-" ++ "application/json" ++ "p; charset=latin-1")%string /\
  do_POST Json.loads srv req
  = do_POST Json.loads srv
      (mk_request (path req) (Some "application/json"%string)
                  (Content_Length req) (rfile req)).
Proof.
  intros req srv. split; [reflexivity|].
  apply (content_type_is_tested_for_a_substring Json.loads srv req
           "text/x-" "p; charset=latin-1").
  reflexivity.
Defined.

(** ** Serialisation: [json.dumps], what goes on the wire, and the
    client of [test_app.py] *)

(** *** Text that is ASCII *)

Lemma byte_of_to_N (c : N) : (c < 256)%N -> Byte.to_N (byte_of c) = c.
Proof.
  intros Hc. unfold byte_of.
  destruct (Byte.of_N c) as [b|] eqn:E.
  - apply Byte.to_of_N. exact E.
  - apply Byte.of_N_None_iff in E. lia.
Qed.

Lemma isascii_cons (c : N) (s : str) :
  isascii (c :: s) = true -> (c < 128)%N /\ isascii s = true.
Proof.
  unfold isascii. cbn [forallb]. intros H.
  apply andb_true_iff in H as [Hc Hs]. apply N.ltb_lt in Hc. auto.
Qed.

Lemma isascii_app (a b : str) :
  isascii (a ++ b) = isascii a && isascii b.
Proof. apply forallb_app. Qed.

(** ASCII text is encoded one byte a character, and never fails to. *)
Lemma encode_ascii (s : str) :
  isascii s = true -> encode s = Ok (List.map byte_of s).
Proof.
  induction s as [|c s IH]; intros H; [reflexivity|].
  apply isascii_cons in H as [Hc Hs].
  cbn [encode List.map]. unfold utf8_bytes.
  destruct (N.ltb_spec c 128); [|lia]. rewrite (IH Hs). reflexivity.
Qed.

Lemma decode_ascii (s : str) :
  isascii s = true -> decode (List.map byte_of s) = Ok s.
Proof.
  intros H. unfold decode. rewrite List.map_map.
  assert (E : utf8_points (List.map (fun c => Byte.to_N (byte_of c)) s) = Some s).
  { induction s as [|c s IH]; [reflexivity|].
    apply isascii_cons in H as [Hc Hs].
    cbn [List.map utf8_points]. rewrite byte_of_to_N by lia.
    destruct (N.ltb_spec c 128); [|lia]. rewrite (IH Hs). reflexivity. }
  rewrite E. reflexivity.
Qed.

(** *** Strings: [scanstring] reads back what [encode_basestring_ascii]
    writes *)

Lemma all_from_spec (P : N -> bool) (count : nat) (u : N) :
  all_from P count u = true ->
  forall v, (u <= v < u + N.of_nat count)%N -> P v = true.
Proof.
  revert u. induction count as [|count IH]; intros u H v Hv; [lia|].
  cbn [all_from] in H. apply andb_true_iff in H as [Hu Hrest].
  destruct (N.eq_dec v u) as [->|Hne]; [exact Hu|].
  apply (IH (N.succ u) Hrest). lia.
Qed.

Lemma hexdigit_hexchar (d : N) :
  (d < 16)%N -> Json.hexdigit (Dumps.hexchar d) = Some d.
Proof.
  intros Hd.
  assert (Hall : all_from (fun d => match Json.hexdigit (Dumps.hexchar d) with
                                    | Some v => (v =? d)%N
                                    | None => false
                                    end) 16 0 = true)
    by (vm_compute; reflexivity).
  pose proof (all_from_spec _ 16 0 Hall d ltac:(lia)) as H.
  cbv beta in H. destruct (Json.hexdigit (Dumps.hexchar d)) as [v|];
    [|discriminate H].
  apply N.eqb_eq in H. subst v. reflexivity.
Qed.

Lemma u_escape_hex4 (u : N) :
  (u < 65536)%N -> u_escape_reads_back u = true.
Proof.
  intros Hu. unfold u_escape_reads_back, Dumps.u_escape, Json.hex4.
  rewrite !hexdigit_hexchar by (apply N.mod_lt; lia).
  apply N.eqb_eq.
  pose proof (N.div_mod u 16 ltac:(lia)) as H0.
  pose proof (N.div_mod (u / 16) 16 ltac:(lia)) as H1.
  pose proof (N.div_mod (u / 256) 16 ltac:(lia)) as H2.
  assert (E1 : (u / 16 / 16 = u / 256)%N) by (rewrite N.Div0.div_div; reflexivity).
  assert (E2 : (u / 256 / 16 = u / 4096)%N) by (rewrite N.Div0.div_div; reflexivity).
  assert (H3 : (u / 4096 < 16)%N) by (apply N.Div0.div_lt_upper_bound; lia).
  rewrite (N.mod_small (u / 4096) 16 H3).
  rewrite E1 in H1. rewrite E2 in H2. lia.
Qed.

Lemma ten_bits_spec (d : N) :
  (d < 1024)%N ->
  N.land d 1023 = d /\ N.lor 55296 d = (55296 + d)%N /\
  N.lor 56320 d = (56320 + d)%N.
Proof.
  intros Hd.
  assert (H : ten_bits d = true).
  { apply (all_from_spec ten_bits (N.to_nat 1024) 0);
      [vm_compute; reflexivity | lia]. }
  unfold ten_bits in H.
  apply andb_true_iff in H as [H H3]. apply andb_true_iff in H as [H1 H2].
  apply N.eqb_eq in H1, H2, H3. auto.
Qed.

(** The two halves that [escape_char] makes of a code point above
    U+FFFF are a high and a low surrogate that join to it. *)
Lemma pair_joins (c : N) :
  (65536 <= c < 1114112)%N ->
  let n := (c - 65536)%N in
  let s1 := N.lor 55296 (N.land (N.shiftr n 10) 1023) in
  let s2 := N.lor 56320 (N.land n 1023) in
  (s1 < 65536)%N /\ (s2 < 65536)%N /\
  Json.high_surrogate s1 = true /\ Json.low_surrogate s2 = true /\
  Json.join_surrogates s1 s2 = c.
Proof.
  intros Hc n s1 s2.
  assert (Hn : (n < 1048576)%N) by (unfold n; lia).
  assert (Hh : (N.shiftr n 10 = n / 1024)%N).
  { rewrite N.shiftr_div_pow2. reflexivity. }
  assert (Hl : (N.land n 1023 = n mod 1024)%N).
  { change 1023%N with (N.ones 10). rewrite N.land_ones. reflexivity. }
  assert (Hhigh : (n / 1024 < 1024)%N).
  { apply N.Div0.div_lt_upper_bound. lia. }
  assert (Hlow : (n mod 1024 < 1024)%N) by (apply N.mod_lt; lia).
  pose proof (N.div_mod n 1024 ltac:(lia)) as Hdm.
  destruct (ten_bits_spec _ Hhigh) as (E1 & E2 & _).
  destruct (ten_bits_spec _ Hlow) as (_ & _ & E3).
  assert (Es1 : s1 = (55296 + n / 1024)%N).
  { unfold s1. rewrite Hh, E1, E2. reflexivity. }
  assert (Es2 : s2 = (56320 + n mod 1024)%N).
  { unfold s2. rewrite Hl, E3. reflexivity. }
  rewrite Es1, Es2.
  unfold Json.high_surrogate, Json.low_surrogate, Json.join_surrogates.
  split; [lia|]. split; [lia|].
  split; [apply andb_true_iff; split; apply N.leb_le; lia|].
  split; [apply andb_true_iff; split; apply N.leb_le; lia|].
  unfold n in *. lia.
Qed.

Lemma scanstring_u (h1 h2 h3 h4 u : N) (tail acc : str) :
  Json.hex4 h1 h2 h3 h4 = Some u ->
  Json.high_surrogate u = false ->
  Json.scanstring (92 :: 117 :: h1 :: h2 :: h3 :: h4 :: tail)%N acc
  = Json.scanstring tail (u :: acc).
Proof.
  intros H1 H2. cbn [Json.scanstring N.eqb Pos.eqb].
  rewrite H1, H2. reflexivity.
Qed.

Lemma scanstring_pair (h1 h2 h3 h4 g1 g2 g3 g4 u u2 : N) (tail acc : str) :
  Json.hex4 h1 h2 h3 h4 = Some u ->
  Json.high_surrogate u = true ->
  Json.hex4 g1 g2 g3 g4 = Some u2 ->
  Json.low_surrogate u2 = true ->
  Json.scanstring
    (92 :: 117 :: h1 :: h2 :: h3 :: h4 ::
     92 :: 117 :: g1 :: g2 :: g3 :: g4 :: tail)%N acc
  = Json.scanstring tail (Json.join_surrogates u u2 :: acc).
Proof.
  intros H1 H2 H3 H4. cbn [Json.scanstring N.eqb Pos.eqb].
  rewrite H1, H2, H3, H4. reflexivity.
Qed.

Lemma u_escape_scans (u : N) :
  (u < 65536)%N ->
  exists h1 h2 h3 h4,
    Dumps.u_escape u = [92; 117; h1; h2; h3; h4]%N /\
    Json.hex4 h1 h2 h3 h4 = Some u.
Proof.
  intros Hu. apply u_escape_hex4 in Hu.
  unfold u_escape_reads_back, Dumps.u_escape in Hu.
  unfold Dumps.u_escape.
  do 4 eexists. split; [reflexivity|].
  destruct (Json.hex4 _ _ _ _) as [v|]; [|discriminate Hu].
  apply N.eqb_eq in Hu. subst v. reflexivity.
Qed.

(** [scanstring] reads the escape of one character back as that
    character. *)
Lemma scanstring_escape_char (c : N) (tail acc : str) :
  scalar c = true ->
  Json.scanstring (Dumps.escape_char c ++ tail) acc
  = Json.scanstring tail (c :: acc).
Proof.
  intros Hc. unfold scalar in Hc.
  apply andb_true_iff in Hc as [Hmax Hsur].
  apply N.ltb_lt in Hmax. apply negb_true_iff in Hsur.
  assert (Hns : ~ (55296 <= c <= 57343)%N).
  { intros [H1 H2]. apply N.leb_le in H1, H2.
    rewrite H1, H2 in Hsur. discriminate Hsur. }
  clear Hsur.
  unfold Dumps.escape_char.
  destruct (N.eqb_spec c 34) as [->|N34]; [reflexivity|].
  destruct (N.eqb_spec c 92) as [->|N92]; [reflexivity|].
  destruct (N.eqb_spec c 8) as [->|N8]; [reflexivity|].
  destruct (N.eqb_spec c 12) as [->|N12]; [reflexivity|].
  destruct (N.eqb_spec c 10) as [->|N10]; [reflexivity|].
  destruct (N.eqb_spec c 13) as [->|N13]; [reflexivity|].
  destruct (N.eqb_spec c 9) as [->|N9]; [reflexivity|].
  destruct ((32 <=? c) && (c <=? 126))%N eqn:Hp.
  { apply andb_true_iff in Hp as [Hlo Hhi]. apply N.leb_le in Hlo, Hhi.
    cbn [app Json.scanstring].
    destruct (N.eqb_spec c 34) as [|_]; [contradiction|].
    destruct (N.eqb_spec c 92) as [|_]; [contradiction|].
    destruct (N.leb_spec c 31); [lia|]. reflexivity. }
  destruct (N.ltb_spec c 65536) as [Hbmp|Hastral].
  - destruct (u_escape_scans c Hbmp) as (h1 & h2 & h3 & h4 & -> & Hhex).
    cbn [app]. apply scanstring_u; [exact Hhex|].
    unfold Json.high_surrogate.
    destruct (N.leb_spec 55296 c); [|reflexivity].
    destruct (N.leb_spec c 56319); [|apply andb_false_r].
    exfalso. apply Hns. lia.
  - cbv zeta.
    destruct (pair_joins c (conj Hastral Hmax)) as (L1 & L2 & Hhi & Hlo & Hjoin).
    cbv zeta in L1, L2, Hhi, Hlo, Hjoin.
    destruct (u_escape_scans _ L1) as (h1 & h2 & h3 & h4 & -> & Hhex1).
    destruct (u_escape_scans _ L2) as (g1 & g2 & g3 & g4 & -> & Hhex2).
    cbn [app]. rewrite (scanstring_pair _ _ _ _ _ _ _ _ _ _ _ _ Hhex1 Hhi Hhex2 Hlo).
    rewrite Hjoin. reflexivity.
Qed.

Lemma scanstring_flat_map (s tail acc : str) :
  forallb scalar s = true ->
  Json.scanstring (List.flat_map Dumps.escape_char s ++ 34%N :: tail) acc
  = Some (rev acc ++ s, tail).
Proof.
  revert acc. induction s as [|c s IH]; intros acc Hs.
  - cbn [List.flat_map app Json.scanstring N.eqb Pos.eqb].
    rewrite app_nil_r. reflexivity.
  - cbn [forallb] in Hs. apply andb_true_iff in Hs as [Hc Hs].
    cbn [List.flat_map]. rewrite <- app_assoc.
    rewrite scanstring_escape_char by exact Hc.
    rewrite IH by exact Hs. cbn [rev]. rewrite <- app_assoc. reflexivity.
Qed.

(** [scanstring], from behind the opening quote, reads back what
    [encode_basestring_ascii] wrote. *)
Lemma scanstring_encode (s tail : str) :
  forallb scalar s = true ->
  exists body,
    Dumps.encode_basestring_ascii s ++ tail = 34%N :: body /\
    Json.scanstring body [] = Some (s, tail).
Proof.
  intros Hs. exists (List.flat_map Dumps.escape_char s ++ 34%N :: tail).
  split.
  - unfold Dumps.encode_basestring_ascii. cbn [app].
    rewrite <- app_assoc. reflexivity.
  - apply scanstring_flat_map. exact Hs.
Qed.

(** *** Integers: [match_number] reads back what [repr] writes *)

Lemma lit_uint (d : Decimal.uint) :
  lit (NilEmpty.string_of_uint d) =
  match d with
  | Decimal.Nil => []
  | Decimal.D0 l => 48%N :: lit (NilEmpty.string_of_uint l)
  | Decimal.D1 l => 49%N :: lit (NilEmpty.string_of_uint l)
  | Decimal.D2 l => 50%N :: lit (NilEmpty.string_of_uint l)
  | Decimal.D3 l => 51%N :: lit (NilEmpty.string_of_uint l)
  | Decimal.D4 l => 52%N :: lit (NilEmpty.string_of_uint l)
  | Decimal.D5 l => 53%N :: lit (NilEmpty.string_of_uint l)
  | Decimal.D6 l => 54%N :: lit (NilEmpty.string_of_uint l)
  | Decimal.D7 l => 55%N :: lit (NilEmpty.string_of_uint l)
  | Decimal.D8 l => 56%N :: lit (NilEmpty.string_of_uint l)
  | Decimal.D9 l => 57%N :: lit (NilEmpty.string_of_uint l)
  end.
Proof. destruct d; reflexivity. Qed.

Lemma isdigit_cases (c : N) :
  Json.isdigit c = true ->
  In c [48; 49; 50; 51; 52; 53; 54; 55; 56; 57]%N.
Proof.
  unfold Json.isdigit. intros H. apply andb_true_iff in H as [H1 H2].
  apply N.leb_le in H1, H2.
  assert (E : (c = 48 \/ c = 49 \/ c = 50 \/ c = 51 \/ c = 52 \/ c = 53 \/
               c = 54 \/ c = 55 \/ c = 56 \/ c = 57)%N) by lia.
  cbn [In]. intuition auto.
Qed.

Lemma int_digits_cons (c : N) (acc : Z) (s : str) :
  Json.isdigit c = true ->
  int_digits acc (c :: s) = int_digits (10 * acc + Z.of_N (c - 48)) s.
Proof.
  intros H. apply isdigit_cases in H. cbn [In] in H.
  repeat (destruct H as [<-|H]; [reflexivity|]). contradiction.
Qed.

Lemma uint_isdigit (d : Decimal.uint) :
  forallb Json.isdigit (lit (NilEmpty.string_of_uint d)) = true.
Proof.
  induction d; rewrite lit_uint; [reflexivity | .. ];
    cbn [forallb]; rewrite IHd; reflexivity.
Qed.

Lemma int_digits_uint (d : Decimal.uint) (p : positive) :
  int_digits (Z.pos p) (lit (NilEmpty.string_of_uint d))
  = Some (Z.pos (Pos.of_uint_acc d p)).
Proof.
  revert p. induction d; intros p; rewrite lit_uint; [reflexivity | .. ];
    rewrite int_digits_cons by reflexivity; cbn [Pos.of_uint_acc];
    match goal with
    | |- int_digits ?acc _ = Some (Z.pos (Pos.of_uint_acc _ ?q)) =>
        replace acc with (Z.pos q) by lia
    end; apply IHd.
Qed.

Lemma nzhead_leading (d : Decimal.uint) :
  match Decimal.nzhead d with
  | Decimal.D0 _ => False
  | _ => True
  end.
Proof. induction d; cbn [Decimal.nzhead]; auto. Qed.

(** The decimal digits of a positive number begin with a digit that
    is not zero. *)
Lemma to_uint_leading (p : positive) :
  match Pos.to_uint p with
  | Decimal.Nil | Decimal.D0 _ => False
  | _ => True
  end.
Proof.
  pose proof (DecimalPos.Unsigned.to_of (Pos.to_uint p)) as H.
  rewrite DecimalPos.Unsigned.of_to in H.
  change (N.to_uint (N.pos p)) with (Pos.to_uint p) in H.
  pose proof (DecimalPos.Unsigned.to_uint_nonzero p) as Hnz.
  pose proof (nzhead_leading (Pos.to_uint p)) as Hh.
  unfold Decimal.unorm in H.
  destruct (Decimal.nzhead (Pos.to_uint p)); rewrite H; auto.
Qed.

(** [str(n)] for a positive [n]: a digit that is not zero, digits,
    and [int] reads [n] from them. *)
Lemma str_of_int_pos (p : positive) :
  exists c r,
    str_of_int (Z.pos p) = c :: r /\
    Json.isdigit c = true /\ c <> 48%N /\
    forallb Json.isdigit r = true /\
    int_digits (Z.of_N (c - 48)) r = Some (Z.pos p).
Proof.
  unfold str_of_int. cbn [Z.to_int NilZero.string_of_int].
  pose proof (to_uint_leading p) as Hl.
  pose proof (DecimalPos.Unsigned.of_to p) as Hof.
  destruct (Pos.to_uint p) as [|l|l|l|l|l|l|l|l|l|l]; try contradiction;
    cbn [NilZero.string_of_uint]; rewrite lit_uint;
    cbn [Pos.of_uint] in Hof; injection Hof as Hof;
    do 2 eexists; (split; [reflexivity|]);
    (split; [reflexivity|]); (split; [discriminate|]);
    (split; [apply uint_isdigit|]);
    rewrite <- Hof; apply int_digits_uint.
Qed.

Lemma str_of_int_neg (p : positive) :
  str_of_int (Z.neg p) = 45%N :: str_of_int (Z.pos p).
Proof. reflexivity. Qed.

Lemma digits_all (ds rest : str) :
  forallb Json.isdigit ds = true ->
  delimited rest = true ->
  Json.digits (ds ++ rest) = (ds, rest).
Proof.
  intros Hds Hrest. induction ds as [|c ds IH].
  - destruct rest as [|c r]; [reflexivity|].
    cbn [delimited] in Hrest. cbn [List.app Json.digits].
    destruct (N.eqb_spec c 44) as [->|_]; [reflexivity|].
    destruct (N.eqb_spec c 93) as [->|_]; [reflexivity|].
    destruct (N.eqb_spec c 125) as [->|_]; [reflexivity|discriminate Hrest].
  - cbn [forallb] in Hds. apply andb_true_iff in Hds as [Hc Hds].
    cbn [List.app Json.digits]. rewrite Hc, (IH Hds). reflexivity.
Qed.

Lemma fraction_part_delimited (rest : str) :
  delimited rest = true -> Json.fraction_part rest = ([], rest).
Proof.
  destruct rest as [|c r]; [reflexivity|]. cbn [delimited]. intros H.
  destruct (N.eqb_spec c 44) as [->|_]; [reflexivity|].
  destruct (N.eqb_spec c 93) as [->|_]; [reflexivity|].
  destruct (N.eqb_spec c 125) as [->|_]; [reflexivity|discriminate H].
Qed.

Lemma exponent_part_delimited (rest : str) :
  delimited rest = true -> Json.exponent_part rest = ([], rest).
Proof.
  destruct rest as [|c r]; [reflexivity|]. cbn [delimited]. intros H.
  destruct (N.eqb_spec c 44) as [->|_]; [reflexivity|].
  destruct (N.eqb_spec c 93) as [->|_]; [reflexivity|].
  destruct (N.eqb_spec c 125) as [->|_]; [reflexivity|discriminate H].
Qed.

Lemma isdigit_not_space (c : N) : Json.isdigit c = true -> isspace c = false.
Proof.
  intros H. apply isdigit_cases in H. cbn [In] in H.
  repeat (destruct H as [<-|H]; [reflexivity|]). contradiction.
Qed.

(** [strip] leaves a string alone that has no whitespace at its ends. *)
Lemma strip_fixed (s : str) :
  match s with c :: _ => isspace c = false | [] => True end ->
  match rev s with c :: _ => isspace c = false | [] => True end ->
  strip s = s.
Proof.
  intros H1 H2. unfold strip, rstrip.
  rewrite (lstrip_fixed s H1), (lstrip_fixed (rev s) H2).
  apply rev_involutive.
Qed.

Lemma rev_head_in (s : str) (c : N) (r : str) : rev s = c :: r -> In c s.
Proof. intros H. apply in_rev. rewrite H. left. reflexivity. Qed.

Lemma count_digits_all (ds : str) :
  forallb Json.isdigit ds = true -> count_digits ds = len ds.
Proof.
  intros H. unfold count_digits, len. f_equal. f_equal.
  induction ds as [|c ds IH]; [reflexivity|].
  cbn [forallb] in H. apply andb_true_iff in H as [Hc Hds].
  cbn [List.filter]. apply isdigit_cases in Hc. cbn [In] in Hc.
  repeat (destruct Hc as [<-|Hc];
          [cbn [N.eqb Pos.eqb negb]; rewrite (IH Hds); reflexivity|]).
  contradiction.
Qed.

(** [int] on a run of digits, with a minus sign or without *)
Lemma int_of_str_digits (negative : bool) (c : N) (r : str) (n : Z) :
  Json.isdigit c = true ->
  forallb Json.isdigit r = true ->
  int_digits (Z.of_N (c - 48)) r = Some n ->
  len (c :: r) <= int_max_str_digits ->
  int_of_str ((if negative then [45%N] else []) ++ c :: r)
  = Ok (if negative then - n else n).
Proof.
  intros Hc Hr Hn Hlen.
  assert (Hall : forallb Json.isdigit (c :: r) = true).
  { cbn [forallb]. rewrite Hc, Hr. reflexivity. }
  assert (Hspace : forall x, In x (c :: r) -> isspace x = false).
  { intros x Hx. apply isdigit_not_space.
    exact (proj1 (forallb_forall _ _) Hall x Hx). }
  unfold int_of_str.
  rewrite strip_fixed.
  2:{ destruct negative; [reflexivity|]. apply Hspace. left. reflexivity. }
  2:{ destruct (rev _) as [|x t] eqn:E; [exact I|].
      apply rev_head_in in E. destruct negative.
      - destruct E as [<-|E]; [reflexivity | exact (Hspace x E)].
      - exact (Hspace x E). }
  assert (Hcount : (count_digits (c :: r) >? int_max_str_digits) = false).
  { rewrite (count_digits_all _ Hall), Z.gtb_ltb. apply Z.ltb_ge. exact Hlen. }
  assert (Hdigit : digit c = Some (Z.of_N (c - 48))).
  { unfold digit. unfold Json.isdigit in Hc. rewrite Hc. reflexivity. }
  destruct negative; cbn [List.app].
  - rewrite Hdigit, Hn, Hcount. reflexivity.
  - pose proof (isdigit_cases c Hc) as Hin. cbn [In] in Hin.
    repeat (destruct Hin as [<-|Hin];
            [cbv beta iota zeta; rewrite Hdigit, Hn, Hcount; reflexivity|]).
    contradiction.
Qed.

Lemma match_number_digits (negative : bool) (c : N) (r : str) (n : Z)
    (rest : str) :
  Json.isdigit c = true -> c <> 48%N ->
  forallb Json.isdigit r = true ->
  int_digits (Z.of_N (c - 48)) r = Some n ->
  len (c :: r) <= int_max_str_digits ->
  delimited rest = true ->
  Json.match_number (((if negative then [45%N] else []) ++ c :: r) ++ rest)
  = Ok (VInt (if negative then - n else n), rest).
Proof.
  intros Hc H48 Hr Hn Hlen Hrest.
  pose proof (int_of_str_digits negative c r n Hc Hr Hn Hlen) as Hint.
  unfold Json.match_number.
  assert (Hsign : Json.sign_part (((if negative then [45%N] else []) ++ c :: r) ++ rest)
                  = (if negative then [45%N] else [], c :: r ++ rest)).
  { destruct negative; [reflexivity|]. cbn [List.app].
    pose proof (isdigit_cases c Hc) as Hin. cbn [In] in Hin.
    repeat (destruct Hin as [<-|Hin]; [reflexivity|]). contradiction. }
  rewrite Hsign, Hc. unfold Json.integer_part.
  destruct (N.eqb_spec c 48) as [|_]; [contradiction|].
  rewrite (digits_all r rest Hr Hrest).
  rewrite (fraction_part_delimited rest Hrest).
  rewrite (exponent_part_delimited rest Hrest).
  unfold Json.int_value. rewrite Hint. reflexivity.
Qed.

(** [match_number] reads back the integer that [repr] wrote, when
    what follows ends the number. *)
Lemma match_number_repr (n : Z) (s rest : str) :
  Dumps.repr_int n = Ok s ->
  delimited rest = true ->
  Json.match_number (s ++ rest) = Ok (VInt n, rest).
Proof.
  unfold Dumps.repr_int. intros Hs Hrest.
  destruct (len (str_of_int (Z.abs n)) >? int_max_str_digits) eqn:Hlen;
    [discriminate Hs|].
  injection Hs as <-. rewrite Z.gtb_ltb in Hlen. apply Z.ltb_ge in Hlen.
  destruct n as [|p|p].
  - change (str_of_int 0) with [48%N]. unfold Json.match_number.
    cbn [List.app Json.sign_part]. change (Json.isdigit 48) with true.
    cbv iota. change (Json.integer_part 48 rest) with ([48%N], rest).
    cbv iota. rewrite (fraction_part_delimited rest Hrest).
    rewrite (exponent_part_delimited rest Hrest). reflexivity.
  - cbn [Z.abs] in Hlen.
    destruct (str_of_int_pos p) as (c & r & E & Hc & H48 & Hr & Hn).
    rewrite E in *.
    exact (match_number_digits false c r _ rest Hc H48 Hr Hn Hlen Hrest).
  - cbn [Z.abs] in Hlen. rewrite str_of_int_neg.
    destruct (str_of_int_pos p) as (c & r & E & Hc & H48 & Hr & Hn).
    rewrite E in *.
    exact (match_number_digits true c r _ rest Hc H48 Hr Hn Hlen Hrest).
Qed.

(** *** Values: [json.loads] reads back what [json.dumps] writes *)

Lemma value_induction (P : value -> Prop) :
  P VNone ->
  (forall b, P (VBool b)) ->
  (forall n, P (VInt n)) ->
  (forall literal, P (VFloat literal)) ->
  (forall s, P (VStr s)) ->
  (forall items, Forall P items -> P (VList items)) ->
  (forall items, Forall (fun kv => P (snd kv)) items -> P (VDict items)) ->
  forall v, P v.
Proof.
  intros HNone HBool HInt HFloat HStr HList HDict.
  fix IH 1. intros [|b|n|literal|s|items|items].
  - exact HNone.
  - apply HBool.
  - apply HInt.
  - apply HFloat.
  - apply HStr.
  - apply HList. induction items as [|v items IHitems]; constructor.
    + apply IH.
    + exact IHitems.
  - apply HDict. induction items as [|[k v] items IHitems]; constructor.
    + apply IH.
    + exact IHitems.
Qed.

Lemma sequence_cons {A : Type} (r : result A) (l : list (result A))
    (chunks : list A) :
  Dumps.sequence (r :: l) = Ok chunks ->
  exists a chunks', r = Ok a /\ Dumps.sequence l = Ok chunks' /\
                    chunks = a :: chunks'.
Proof.
  cbn [Dumps.sequence]. destruct r as [a|e]; [|discriminate].
  cbn [bind]. destruct (Dumps.sequence l) as [chunks'|e]; [|discriminate].
  cbn [bind]. intros [= <-]. exists a, chunks'. auto.
Qed.

Lemma whitespace_opening (c : N) (t : str) :
  In c opening -> Json.whitespace (c :: t) = c :: t.
Proof.
  intros H. cbn [opening In] in H.
  repeat (destruct H as [<-|H]; [reflexivity|]). contradiction.
Qed.

Lemma scan_once_array (fuel : nat) (c : N) (t : str) :
  In c opening ->
  Json.scan_once (S fuel) (91%N :: c :: t) = Json.array_items fuel (c :: t) [].
Proof.
  intros H. cbn [opening In] in H.
  repeat (destruct H as [<-|H]; [reflexivity|]). contradiction.
Qed.

Lemma scan_once_digit (fuel : nat) (c : N) (t : str) :
  Json.isdigit c = true ->
  Json.scan_once (S fuel) (c :: t) = Json.match_number (c :: t).
Proof.
  intros H. apply isdigit_cases in H. cbn [In] in H.
  repeat (destruct H as [<-|H]; [reflexivity|]). contradiction.
Qed.

Lemma scan_once_minus (fuel : nat) (c : N) (t : str) :
  Json.isdigit c = true ->
  Json.scan_once (S fuel) (45%N :: c :: t) = Json.match_number (45%N :: c :: t).
Proof.
  intros H. apply isdigit_cases in H. cbn [In] in H.
  repeat (destruct H as [<-|H]; [reflexivity|]). contradiction.
Qed.

Lemma scan_once_object (fuel : nat) (s : str) :
  (exists t, s = 34%N :: t) ->
  Json.scan_once (S fuel) (123%N :: s) = Json.object_items fuel s [].
Proof. intros (t & ->). reflexivity. Qed.

Section RoundTrip.

Variable float_repr : str -> str.

(** What [json.dumps] writes of a value without a float begins with
    one of the characters of [opening]. *)
Lemma dumps_opening (v : value) (s : str) :
  plain v = true ->
  Dumps.dumps float_repr v = Ok s ->
  exists c t, s = c :: t /\ In c opening.
Proof.
  intros Hp Hs. destruct v as [|[|]|n|literal|text|items|items];
    cbn [Dumps.dumps] in Hs.
  - injection Hs as <-. do 2 eexists. split; [reflexivity|]. cbn. tauto.
  - injection Hs as <-. do 2 eexists. split; [reflexivity|]. cbn. tauto.
  - injection Hs as <-. do 2 eexists. split; [reflexivity|]. cbn. tauto.
  - unfold Dumps.repr_int in Hs. destruct (_ >? _); [discriminate Hs|].
    injection Hs as <-. destruct n as [|p|p].
    + do 2 eexists. split; [reflexivity|]. cbn. tauto.
    + destruct (str_of_int_pos p) as (c & r & E & Hc & _).
      exists c, r. split; [exact E|].
      apply isdigit_cases in Hc. cbn [In opening] in *. tauto.
    + rewrite str_of_int_neg. do 2 eexists. split; [reflexivity|]. cbn. tauto.
  - discriminate Hp.
  - injection Hs as <-. do 2 eexists. split; [reflexivity|]. cbn. tauto.
  - destruct (Dumps.sequence _) as [chunks|e]; [|discriminate Hs].
    injection Hs as <-. do 2 eexists. split; [reflexivity|]. cbn. tauto.
  - destruct (Dumps.sequence _) as [chunks|e]; [|discriminate Hs].
    injection Hs as <-. do 2 eexists. split; [reflexivity|]. cbn. tauto.
Qed.

Lemma join_cons (sep chunk : str) (chunks : list str) (tail : str) :
  exists tail',
    Dumps.join sep (chunk :: chunks) ++ tail = chunk ++ tail' /\
    (List.length tail <= List.length tail')%nat.
Proof.
  destruct chunks as [|chunk' chunks].
  - exists tail. split; [reflexivity | lia].
  - exists (sep ++ Dumps.join sep (chunk' :: chunks) ++ tail).
    cbn [Dumps.join]. rewrite <- !List.app_assoc.
    split; [reflexivity|]. rewrite !List.length_app. lia.
Qed.

Lemma join_two (sep chunk chunk' : str) (chunks : list str) (tail : str) :
  Dumps.join sep (chunk :: chunk' :: chunks) ++ tail
  = chunk ++ sep ++ (Dumps.join sep (chunk' :: chunks) ++ tail).
Proof. cbn [Dumps.join]. rewrite <- !List.app_assoc. reflexivity. Qed.

(** The array loop reads the items back that [json.dumps] wrote
    with [", "] between them. *)
Lemma array_items_reads_back (items : list value) :
  Forall (reads_back float_repr) items ->
  forall chunks acc fuel rest,
    items <> [] ->
    forallb plain items = true ->
    Dumps.sequence (List.map (Dumps.dumps float_repr) items) = Ok chunks ->
    (2 * List.length (Dumps.join (lit ", ") chunks ++ 93%N :: rest) + 2
     <= fuel)%nat ->
    Json.array_items fuel (Dumps.join (lit ", ") chunks ++ 93%N :: rest) acc
    = Ok (VList (rev acc ++ items), rest).
Proof.
  induction 1 as [|v items Hv Hitems IH]; intros chunks acc fuel rest Hne Hp Hs Hf;
    [contradiction|].
  cbn [List.map] in Hs.
  apply sequence_cons in Hs as (chunk & chunks' & Hchunk & Hs & ->).
  cbn [forallb] in Hp. apply andb_true_iff in Hp as [Hpv Hp].
  destruct fuel as [|fuel]; [lia|].
  cbn [Json.array_items].
  destruct items as [|v' items].
  - cbn [List.map Dumps.sequence] in Hs. injection Hs as <-.
    cbn [Dumps.join] in *.
    rewrite (Hv chunk fuel (93%N :: rest) Hpv Hchunk eq_refl) by lia.
    cbn [bind]. change (Json.whitespace (93%N :: rest)) with (93%N :: rest).
    cbv iota. cbn [rev List.app]. reflexivity.
  - assert (Hs' := Hs). cbn [List.map] in Hs'.
    apply sequence_cons in Hs' as (chunk' & chunks'' & Hchunk' & _ & ->).
    cbn [forallb] in Hp. assert (Hp' := Hp).
    apply andb_true_iff in Hp' as [Hpv' _].
    destruct (dumps_opening v' chunk' Hpv' Hchunk') as (c & t & -> & Hc).
    rewrite join_two in Hf. rewrite join_two.
    set (tail := Dumps.join _ (_ :: chunks'') ++ _) in *.
    change (lit ", " ++ tail) with (44%N :: 32%N :: tail) in *.
    rewrite List.length_app in Hf. cbn [List.length] in Hf.
    rewrite (Hv chunk fuel (44%N :: 32%N :: tail) Hpv Hchunk eq_refl)
      by (rewrite List.length_app; cbn [List.length]; lia).
    cbn [bind].
    change (Json.whitespace (44%N :: 32%N :: tail)) with (44%N :: 32%N :: tail).
    cbv iota.
    change (Json.whitespace (32%N :: tail)) with (Json.whitespace tail).
    assert (Ew : Json.whitespace tail = tail).
    { destruct (join_cons (lit ", ") (c :: t) chunks'' (93%N :: rest))
        as (tail' & Et & _).
      unfold tail. rewrite Et. apply whitespace_opening. exact Hc. }
    rewrite Ew. unfold tail.
    rewrite (IH _ (v :: acc) fuel rest); [| discriminate | exact Hp | exact Hs | fold tail; lia].
    cbn [rev]. rewrite <- List.app_assoc. reflexivity.
Qed.

Lemma dict_set_fresh (acc : list (str * value)) (key : str) (v : value) :
  (forall k w, In (k, w) acc -> str_eqb k key = false) ->
  dict_set acc key v = acc ++ [(key, v)].
Proof.
  induction acc as [|[k w] acc IH]; intros H; [reflexivity|].
  cbn [dict_set List.app]. rewrite (H k w (or_introl eq_refl)).
  rewrite IH; [reflexivity|].
  intros k' w' Hin. exact (H k' w' (or_intror Hin)).
Qed.

Lemma distinct_cons (key : str) (keys : list str) :
  distinct (key :: keys) = true ->
  (forall k', In k' keys -> str_eqb key k' = false) /\ distinct keys = true.
Proof.
  cbn [distinct]. intros H. apply andb_true_iff in H as [H1 H2].
  split; [|exact H2]. intros k' Hin.
  destruct (str_eqb key k') eqn:E; [|reflexivity].
  apply negb_true_iff in H1.
  assert (Hex : existsb (str_eqb key) keys = true).
  { apply existsb_exists. exists k'. split; [exact Hin | exact E]. }
  rewrite Hex in H1. discriminate H1.
Qed.

Lemma whitespace_written (written tail : str) :
  (exists c t, written = c :: t /\ In c opening) ->
  Json.whitespace (written ++ tail) = written ++ tail.
Proof.
  intros (c & t & -> & Hc). cbn [List.app]. apply whitespace_opening. exact Hc.
Qed.

Lemma encode_basestring_ascii_app (key tail : str) :
  Dumps.encode_basestring_ascii key ++ tail
  = 34%N :: List.flat_map Dumps.escape_char key ++ 34%N :: tail.
Proof.
  unfold Dumps.encode_basestring_ascii. cbn [List.app].
  rewrite <- List.app_assoc. reflexivity.
Qed.

(** One turn of the object loop on the last item *)
Lemma object_items_last (fuel : nat) (key written : str) (x : value)
    (rest : str) (acc : list (str * value)) :
  forallb scalar key = true ->
  (exists c t, written = c :: t /\ In c opening) ->
  Json.scan_once fuel (written ++ 125%N :: rest) = Ok (x, 125%N :: rest) ->
  Json.object_items (S fuel)
    (Dumps.encode_basestring_ascii key ++ lit ": " ++ written ++ 125%N :: rest)
    acc
  = Ok (VDict (dict_set acc key x), rest).
Proof.
  intros Hkey Hopen Hscan.
  rewrite encode_basestring_ascii_app. cbn [Json.object_items].
  rewrite (scanstring_flat_map key _ [] Hkey). cbn [rev List.app].
  cbn [Json.result_of bind].
  change (lit ": ") with [58%N; 32%N]. cbn [List.app].
  change (Json.whitespace (58%N :: 32%N :: written ++ 125%N :: rest))
    with (58%N :: 32%N :: written ++ 125%N :: rest).
  cbv iota.
  change (Json.whitespace (32%N :: written ++ 125%N :: rest))
    with (Json.whitespace (written ++ 125%N :: rest)).
  rewrite (whitespace_written _ _ Hopen), Hscan. reflexivity.
Qed.

(** One turn of the object loop on an item that is not the last *)
Lemma object_items_more (fuel : nat) (key written : str) (x : value)
    (next : str) (acc : list (str * value)) :
  forallb scalar key = true ->
  (exists c t, written = c :: t /\ In c opening) ->
  Json.whitespace next = next ->
  Json.scan_once fuel (written ++ lit ", " ++ next)
  = Ok (x, lit ", " ++ next) ->
  Json.object_items (S fuel)
    (Dumps.encode_basestring_ascii key ++ lit ": " ++ written ++
     lit ", " ++ next)
    acc
  = Json.object_items fuel next (dict_set acc key x).
Proof.
  intros Hkey Hopen Hnext Hscan.
  rewrite encode_basestring_ascii_app. cbn [Json.object_items].
  rewrite (scanstring_flat_map key _ [] Hkey). cbn [rev List.app].
  cbn [Json.result_of bind].
  change (lit ": ") with [58%N; 32%N]. cbn [List.app].
  change (Json.whitespace (58%N :: 32%N :: written ++ lit ", " ++ next))
    with (58%N :: 32%N :: written ++ lit ", " ++ next).
  cbv iota.
  change (Json.whitespace (32%N :: written ++ lit ", " ++ next))
    with (Json.whitespace (written ++ lit ", " ++ next)).
  rewrite (whitespace_written _ _ Hopen), Hscan. cbn [bind].
  change (Json.whitespace (lit ", " ++ next)) with (44%N :: 32%N :: next).
  cbv iota.
  change (Json.whitespace (32%N :: next)) with (Json.whitespace next).
  rewrite Hnext. reflexivity.
Qed.

Lemma join_one_app (sep a b c d : str) :
  Dumps.join sep [a ++ b ++ c] ++ d = a ++ b ++ c ++ d.
Proof. cbn [Dumps.join]. rewrite <- !List.app_assoc. reflexivity. Qed.

Lemma join_more_app (sep a b c chunk' : str) (chunks : list str) (d : str) :
  Dumps.join sep ((a ++ b ++ c) :: chunk' :: chunks) ++ d
  = a ++ b ++ c ++ sep ++ (Dumps.join sep (chunk' :: chunks) ++ d).
Proof. cbn [Dumps.join]. rewrite <- !List.app_assoc. reflexivity. Qed.

(** The object loop reads the items back that [json.dumps] wrote,
    each as its key, [": "] and its value, with [", "] between them. *)
Lemma object_items_reads_back (items : list (str * value)) :
  Forall (fun kv => reads_back float_repr (snd kv)) items ->
  forall chunks acc fuel rest,
    items <> [] ->
    forallb (fun '(key, x) => forallb scalar key && plain x) items = true ->
    distinct (List.map fst items) = true ->
    (forall k w k', In (k, w) acc -> In k' (List.map fst items) ->
                    str_eqb k k' = false) ->
    Dumps.sequence
      (List.map (fun '(key, x) =>
                   bind (Dumps.dumps float_repr x) (fun chunk =>
                   Ok (Dumps.encode_basestring_ascii key ++ lit ": " ++ chunk)))
                items) = Ok chunks ->
    (2 * List.length (Dumps.join (lit ", ") chunks ++ 125%N :: rest) + 1
     <= fuel)%nat ->
    Json.object_items fuel (Dumps.join (lit ", ") chunks ++ 125%N :: rest) acc
    = Ok (VDict (acc ++ items), rest).
Proof.
  induction 1 as [|[key x] items Hx Hitems IH];
    intros chunks acc fuel rest Hne Hp Hd Hacc Hs Hf; [contradiction|].
  cbn [snd] in Hx. cbn [List.map] in Hs.
  apply sequence_cons in Hs as (chunk & chunks' & Hchunk & Hs & ->).
  destruct (Dumps.dumps float_repr x) as [written|e] eqn:Hwritten;
    [|discriminate Hchunk].
  assert (Echunk : chunk = Dumps.encode_basestring_ascii key ++ lit ": " ++ written)
    by (injection Hchunk as <-; reflexivity).
  subst chunk. clear Hchunk.
  cbn [forallb] in Hp. apply andb_true_iff in Hp as [Hpx Hp].
  apply andb_true_iff in Hpx as [Hkey Hpx].
  cbn [List.map fst] in Hd, Hacc.
  apply distinct_cons in Hd as [Hfresh Hd].
  pose proof (dumps_opening x written Hpx Hwritten) as Hopen.
  assert (Hset : dict_set acc key x = acc ++ [(key, x)]).
  { apply dict_set_fresh. intros k w Hin.
    exact (Hacc k w key Hin (or_introl eq_refl)). }
  destruct fuel as [|fuel]; [lia|].
  destruct items as [|[key' x'] items].
  - cbn [List.map Dumps.sequence] in Hs. injection Hs as <-.
    rewrite join_one_app in Hf. rewrite join_one_app.
    rewrite !List.length_app in Hf. cbn [List.length] in Hf.
    change (List.length (lit ": ")) with 2%nat in Hf.
    rewrite (object_items_last fuel key written x rest acc Hkey Hopen).
    + rewrite Hset. reflexivity.
    + apply (Hx written fuel (125%N :: rest) Hpx Hwritten eq_refl).
      rewrite List.length_app. cbn [List.length]. lia.
  - assert (Hs' := Hs). cbn [List.map] in Hs'.
    apply sequence_cons in Hs' as (chunk' & chunks'' & Hchunk' & _ & ->).
    destruct (Dumps.dumps float_repr x') as [written'|e] eqn:Hwritten';
      [|discriminate Hchunk'].
    assert (Echunk : chunk' = Dumps.encode_basestring_ascii key' ++ lit ": " ++ written')
      by (injection Hchunk' as <-; reflexivity).
    subst chunk'. clear Hchunk'.
    rewrite join_more_app in Hf. rewrite join_more_app.
    rewrite !List.length_app in Hf. cbn [List.length] in Hf.
    change (List.length (lit ": ")) with 2%nat in Hf.
    change (List.length (lit ", ")) with 2%nat in Hf.
    rewrite (object_items_more fuel key written x _ acc Hkey Hopen).
    + rewrite Hset.
      rewrite (IH _ (acc ++ [(key, x)]) fuel rest);
        [ rewrite <- List.app_assoc; reflexivity
        | discriminate | exact Hp | exact Hd | | exact Hs
        | rewrite !List.length_app; cbn [List.length]; lia ].
      intros k w k' Hin Hin'. apply in_app_or in Hin as [Hin|Hin].
      * exact (Hacc k w k' Hin (or_intror Hin')).
      * destruct Hin as [[= <- <-]|[]]. exact (Hfresh k' Hin').
    + destruct (join_cons (lit ", ")
                  (Dumps.encode_basestring_ascii key' ++ lit ": " ++ written')
                  chunks'' (125%N :: rest)) as (tail' & Et & _).
      rewrite Et. reflexivity.
    + apply (Hx written fuel (lit ", " ++ _) Hpx Hwritten eq_refl).
      rewrite !List.length_app. cbn [List.length].
      change (List.length (lit ", ")) with 2%nat. lia.
Qed.

Lemma list_written_app (open_ close body rest : str) :
  (open_ ++ body ++ close) ++ rest = open_ ++ body ++ close ++ rest.
Proof. rewrite <- !List.app_assoc. reflexivity. Qed.

(** [scan_once] reads every plain value back from what [json.dumps]
    wrote of it. *)
Lemma scan_once_reads_back (v : value) : reads_back float_repr v.
Proof.
  induction v as [|b|n|literal|text|items IH|items IH] using value_induction;
    intros s fuel rest Hp Hs Hrest Hf;
    (destruct fuel as [|fuel]; [lia|]); cbn [Dumps.dumps] in Hs.
  - injection Hs as <-. reflexivity.
  - destruct b; injection Hs as <-; reflexivity.
  - rewrite <- (match_number_repr n s rest Hs Hrest).
    unfold Dumps.repr_int in Hs. destruct (_ >? _); [discriminate Hs|].
    injection Hs as <-. destruct n as [|p|p].
    + reflexivity.
    + destruct (str_of_int_pos p) as (c & r & E & Hc & _).
      rewrite E. cbn [List.app]. apply scan_once_digit. exact Hc.
    + rewrite str_of_int_neg.
      destruct (str_of_int_pos p) as (c & r & E & Hc & _).
      rewrite E. cbn [List.app]. apply scan_once_minus. exact Hc.
  - discriminate Hp.
  - injection Hs as <-. cbn [plain] in Hp.
    rewrite encode_basestring_ascii_app.
    cbn [Json.scan_once N.eqb Pos.eqb].
    rewrite (scanstring_flat_map text rest [] Hp). reflexivity.
  - destruct (Dumps.sequence _) as [chunks|e] eqn:Hseq; [|discriminate Hs].
    assert (Es : s = lit "[" ++ Dumps.join (lit ", ") chunks ++ lit "]")
      by (injection Hs as <-; reflexivity).
    subst s. clear Hs. cbn [plain] in Hp.
    rewrite list_written_app in Hf. rewrite list_written_app.
    change (lit "[" ++ ?x) with (91%N :: x) in Hf.
    change (lit "]" ++ rest) with (93%N :: rest) in Hf.
    change (Json.scan_once (S fuel)
              (91%N :: Dumps.join (lit ", ") chunks ++ 93%N :: rest)
            = Ok (VList items, rest)).
    cbn [List.length] in Hf.
    destruct items as [|v items].
    + cbn [List.map Dumps.sequence] in Hseq. injection Hseq as <-. reflexivity.
    + assert (Hseq' := Hseq). cbn [List.map] in Hseq'.
      apply sequence_cons in Hseq' as (chunk & chunks' & Hchunk & _ & ->).
      assert (Hpv : plain v = true).
      { cbn [forallb] in Hp. apply andb_true_iff in Hp as [Hpv _]. exact Hpv. }
      destruct (dumps_opening v chunk Hpv Hchunk) as (c & t & -> & Hc).
      destruct (join_cons (lit ", ") (c :: t) chunks' (93%N :: rest))
        as (tail' & Et & _).
      rewrite Et. cbn [List.app]. rewrite (scan_once_array fuel c _ Hc).
      change (c :: t ++ tail') with ((c :: t) ++ tail'). rewrite <- Et.
      apply (array_items_reads_back _ IH _ [] fuel rest);
        [discriminate | exact Hp | exact Hseq | lia].
  - destruct (Dumps.sequence _) as [chunks|e] eqn:Hseq; [|discriminate Hs].
    assert (Es : s = lit "{" ++ Dumps.join (lit ", ") chunks ++ lit "}")
      by (injection Hs as <-; reflexivity).
    subst s. clear Hs. cbn [plain] in Hp.
    apply andb_true_iff in Hp as [Hp Hd].
    rewrite list_written_app in Hf. rewrite list_written_app.
    change (lit "{" ++ ?x) with (123%N :: x) in Hf.
    change (lit "}" ++ rest) with (125%N :: rest) in Hf.
    change (Json.scan_once (S fuel)
              (123%N :: Dumps.join (lit ", ") chunks ++ 125%N :: rest)
            = Ok (VDict items, rest)).
    cbn [List.length] in Hf.
    destruct items as [|[key x] items].
    + cbn [List.map Dumps.sequence] in Hseq. injection Hseq as <-. reflexivity.
    + assert (Hseq' := Hseq). cbn [List.map] in Hseq'.
      apply sequence_cons in Hseq' as (chunk & chunks' & Hchunk & _ & ->).
      destruct (Dumps.dumps float_repr x) as [written|e] eqn:Hwritten;
        [|discriminate Hchunk].
      assert (Echunk : chunk = Dumps.encode_basestring_ascii key ++ lit ": " ++ written)
        by (injection Hchunk as <-; reflexivity).
      subst chunk. clear Hchunk.
      rewrite scan_once_object.
      2:{ destruct (join_cons (lit ", ")
                      (Dumps.encode_basestring_ascii key ++ lit ": " ++ written)
                      chunks' (125%N :: rest)) as (tail' & Et & _).
          eexists. etransitivity; [exact Et|].
          rewrite <- List.app_assoc. apply encode_basestring_ascii_app. }
      apply (object_items_reads_back _ IH _ [] fuel rest);
        [discriminate | exact Hp | exact Hd | | exact Hseq | lia].
      intros k w k' [].
Qed.

(** [json.loads] gives back the plain value that [json.dumps] wrote. *)
Lemma loads_dumps (v : value) (s : str) :
  plain v = true ->
  Dumps.dumps float_repr v = Ok s ->
  Json.loads s = Ok v.
Proof.
  intros Hp Hs. unfold Json.loads.
  destruct (dumps_opening v s Hp Hs) as (c & t & E & Hc).
  assert (Hbom : startswith [65279%N] s = false).
  { rewrite E. cbn [opening In] in Hc.
    repeat (destruct Hc as [<-|Hc]; [reflexivity|]). contradiction. }
  assert (Hw : Json.whitespace s = s).
  { rewrite E. apply whitespace_opening. exact Hc. }
  rewrite Hbom, Hw.
  pose proof (scan_once_reads_back v s (2 * List.length s + 2)%nat [] Hp Hs eq_refl)
    as Hscan.
  rewrite List.app_nil_r in Hscan. rewrite Hscan by lia. reflexivity.
Qed.

End RoundTrip.

(** *** What [json.dumps] writes is ASCII *)

Lemma hexchar_ascii (d : N) :
  (d < 16)%N -> (Dumps.hexchar d <? 128)%N = true.
Proof.
  intros Hd. unfold Dumps.hexchar. apply N.ltb_lt.
  destruct (N.ltb_spec d 10); lia.
Qed.

Lemma u_escape_isascii (n : N) : isascii (Dumps.u_escape n) = true.
Proof.
  unfold Dumps.u_escape, isascii. cbn [forallb].
  rewrite !hexchar_ascii by (apply N.mod_lt; lia). reflexivity.
Qed.

Lemma escape_char_isascii (c : N) : isascii (Dumps.escape_char c) = true.
Proof.
  unfold Dumps.escape_char.
  repeat match goal with
         | |- context [if (c =? ?k)%N then _ else _] =>
             destruct (c =? k)%N; [reflexivity|]
         end.
  destruct ((32 <=? c) && (c <=? 126))%N eqn:Hp.
  { apply andb_true_iff in Hp as [_ Hhi]. apply N.leb_le in Hhi.
    unfold isascii. cbn [forallb]. rewrite andb_true_r. apply N.ltb_lt. lia. }
  destruct (c <? 65536)%N; [apply u_escape_isascii|].
  cbv zeta. rewrite isascii_app, !u_escape_isascii. reflexivity.
Qed.

Lemma encode_basestring_ascii_isascii (s : str) :
  isascii (Dumps.encode_basestring_ascii s) = true.
Proof.
  unfold Dumps.encode_basestring_ascii. rewrite !isascii_app.
  assert (H : isascii (List.flat_map Dumps.escape_char s) = true).
  { induction s as [|c s IH]; [reflexivity|].
    cbn [List.flat_map]. rewrite isascii_app, escape_char_isascii, IH.
    reflexivity. }
  rewrite H. reflexivity.
Qed.

Lemma isdigit_isascii (s : str) :
  forallb Json.isdigit s = true -> isascii s = true.
Proof.
  intros H. apply forallb_forall. intros c Hc.
  pose proof (proj1 (forallb_forall _ _) H c Hc) as Hd.
  unfold Json.isdigit in Hd. apply andb_true_iff in Hd as [_ Hd].
  apply N.leb_le in Hd. apply N.ltb_lt. lia.
Qed.

Lemma str_of_int_isascii (n : Z) : isascii (str_of_int n) = true.
Proof.
  assert (Hpos : forall p, isascii (str_of_int (Z.pos p)) = true).
  { intros p. destruct (str_of_int_pos p) as (c & r & -> & Hc & _ & Hr & _).
    apply isdigit_isascii. cbn [forallb]. rewrite Hc, Hr. reflexivity. }
  destruct n as [|p|p]; [reflexivity | apply Hpos |].
  rewrite str_of_int_neg. unfold isascii in *. cbn [forallb].
  rewrite (Hpos p). reflexivity.
Qed.

Lemma join_isascii (sep : str) (chunks : list str) :
  isascii sep = true ->
  Forall (fun chunk => isascii chunk = true) chunks ->
  isascii (Dumps.join sep chunks) = true.
Proof.
  intros Hsep. induction 1 as [|chunk chunks Hchunk Hchunks IH]; [reflexivity|].
  destruct chunks as [|chunk' chunks]; [exact Hchunk|].
  change (Dumps.join sep (chunk :: chunk' :: chunks))
    with (chunk ++ sep ++ Dumps.join sep (chunk' :: chunks)).
  rewrite !isascii_app, Hchunk, Hsep, IH. reflexivity.
Qed.

Lemma sequence_Forall {A B : Type} (f : A -> result B) (P : B -> Prop)
    (items : list A) :
  Forall (fun a => forall b, f a = Ok b -> P b) items ->
  forall chunks, Dumps.sequence (List.map f items) = Ok chunks ->
                 Forall P chunks.
Proof.
  induction 1 as [|a items Ha _ IH]; intros chunks Hs.
  - cbn in Hs. injection Hs as <-. constructor.
  - cbn [List.map] in Hs.
    apply sequence_cons in Hs as (b & chunks' & Hb & Hs & ->).
    constructor; [exact (Ha b Hb) | exact (IH chunks' Hs)].
Qed.

Section Ascii.

Variable float_repr : str -> str.

(** [repr] of a float is ASCII text. *)
Hypothesis float_repr_isascii :
  forall literal, isascii (float_repr literal) = true.

(** Whatever the value, what [json.dumps] writes of it is ASCII. *)
Lemma dumps_isascii (v : value) (s : str) :
  Dumps.dumps float_repr v = Ok s -> isascii s = true.
Proof.
  revert s.
  induction v as [|b|n|literal|text|items IH|items IH] using value_induction;
    intros s Hs; cbn [Dumps.dumps] in Hs.
  - injection Hs as <-. reflexivity.
  - destruct b; injection Hs as <-; reflexivity.
  - unfold Dumps.repr_int in Hs. destruct (_ >? _); [discriminate Hs|].
    injection Hs as <-. apply str_of_int_isascii.
  - injection Hs as <-. apply float_repr_isascii.
  - injection Hs as <-. apply encode_basestring_ascii_isascii.
  - destruct (Dumps.sequence _) as [chunks|e] eqn:Hseq; [|discriminate Hs].
    assert (Es : s = lit "[" ++ Dumps.join (lit ", ") chunks ++ lit "]")
      by (injection Hs as <-; reflexivity).
    subst s. rewrite !isascii_app.
    rewrite (join_isascii (lit ", ") chunks eq_refl); [reflexivity|].
    exact (sequence_Forall _ _ items IH chunks Hseq).
  - destruct (Dumps.sequence _) as [chunks|e] eqn:Hseq; [|discriminate Hs].
    assert (Es : s = lit "{" ++ Dumps.join (lit ", ") chunks ++ lit "}")
      by (injection Hs as <-; reflexivity).
    subst s. rewrite !isascii_app.
    rewrite (join_isascii (lit ", ") chunks eq_refl); [reflexivity|].
    refine (sequence_Forall _ _ items _ chunks Hseq).
    apply (Forall_impl _
             (P := fun kv => forall s,
                     Dumps.dumps float_repr (snd kv) = Ok s ->
                     isascii s = true));
      [|exact IH].
    intros [key x] Hx chunk Hchunk. cbn [snd] in Hx.
    destruct (Dumps.dumps float_repr x) as [written|e]; [|discriminate Hchunk].
    assert (Echunk : chunk = Dumps.encode_basestring_ascii key ++ lit ": " ++ written)
      by (injection Hchunk as <-; reflexivity).
    subst chunk. rewrite !isascii_app, encode_basestring_ascii_isascii.
    rewrite (Hx written eq_refl). reflexivity.
Qed.

End Ascii.

(** *** Plain values are written, whatever [repr] does to floats *)

Lemma dumps_plain (v : value) :
  plain v = true ->
  exists s, forall float_repr, Dumps.dumps float_repr v = Ok s.
Proof.
  induction v as [|b|n|literal|text|items IH|items IH] using value_induction;
    intros Hp; cbn [plain] in Hp.
  - eexists. intros f. reflexivity.
  - exists (if b then lit "true" else lit "false"). intros f.
    destruct b; reflexivity.
  - exists (str_of_int n). intros f. cbn [Dumps.dumps]. unfold Dumps.repr_int.
    apply Z.leb_le in Hp.
    destruct (Z.gtb_spec (len (str_of_int (Z.abs n))) int_max_str_digits);
      [lia | reflexivity].
  - discriminate Hp.
  - eexists. intros f. reflexivity.
  - assert (H : exists chunks, forall f,
               Dumps.sequence (List.map (Dumps.dumps f) items) = Ok chunks).
    { induction IH as [|v items Hv _ IHitems]; [exists []; reflexivity|].
      cbn [forallb] in Hp. apply andb_true_iff in Hp as [Hpv Hp].
      destruct (Hv Hpv) as (s & Hs). destruct (IHitems Hp) as (chunks & Hc).
      exists (s :: chunks). intros f.
      cbn [List.map Dumps.sequence]. rewrite Hs, Hc. reflexivity. }
    destruct H as (chunks & Hc). eexists. intros f.
    cbn [Dumps.dumps]. rewrite Hc. reflexivity.
  - apply andb_true_iff in Hp as [Hp _].
    assert (H : exists chunks, forall f,
               Dumps.sequence
                 (List.map (fun '(key, x) =>
                    bind (Dumps.dumps f x) (fun chunk =>
                    Ok (Dumps.encode_basestring_ascii key ++ lit ": " ++ chunk)))
                  items) = Ok chunks).
    { induction IH as [|[key x] items Hx _ IHitems]; [exists []; reflexivity|].
      cbn [forallb] in Hp. apply andb_true_iff in Hp as [Hpx Hp].
      apply andb_true_iff in Hpx as [_ Hpx]. cbn [snd] in Hx.
      destruct (Hx Hpx) as (s & Hs). destruct (IHitems Hp) as (chunks & Hc).
      eexists (_ :: chunks). intros f.
      cbn [List.map Dumps.sequence]. rewrite Hs, Hc. reflexivity. }
    destruct H as (chunks & Hc). eexists. intros f.
    cbn [Dumps.dumps]. rewrite Hc. reflexivity.
Qed.

(** A plain value goes over the wire and comes back: it is written in
    ASCII, which [encode] turns into bytes and [decode] back into the
    text that [json.loads] reads the value from. *)
Lemma plain_crosses_the_wire (float_repr : str -> str) (v : value) :
  plain v = true ->
  exists s,
    Dumps.dumps float_repr v = Ok s /\ isascii s = true /\
    encode s = Ok (List.map byte_of s) /\
    decode (List.map byte_of s) = Ok s /\
    Json.loads s = Ok v.
Proof.
  intros Hp. destruct (dumps_plain v Hp) as (s & Hs).
  assert (Ha : isascii s = true).
  { apply (dumps_isascii (fun _ => []) (fun _ => eq_refl) v s). apply Hs. }
  exists s. split; [apply Hs|]. split; [exact Ha|].
  split; [exact (encode_ascii s Ha)|]. split; [exact (decode_ascii s Ha)|].
  exact (loads_dumps float_repr v s Hp (Hs float_repr)).
Qed.

(** The answers of [do_POST]: what holds of every 200 with the two
    fields and of the twelve error answers holds of the answer. *)
Lemma do_POST_answers (P : response -> Prop)
    (json_loads : str -> result value) (srv : server) (req : request) :
  (forall ticket_id analysis,
     P (send_json_response 200
          (VDict [(lit "ticket_id", ticket_id); (lit "analysis", analysis)]))) ->
  (forall status message,
     In (status, message) error_answers ->
     P (send_json_response status (error message))) ->
  P (fst (do_POST json_loads srv req)).
Proof.
  intros Hok Herr.
  unfold do_POST, do_POST_body.
  destruct (contains (lit "application/json") (content_type_of req));
    cbn [negb]; [|apply Herr; cbn; auto 20].
  destruct (content_length_of req) as [n|e]; rewrite mbind_lift;
    [|apply Herr; cbn; auto 20].
  destruct (n =? 0); [apply Herr; cbn; auto 20|].
  destruct (n >? 10485760); [apply Herr; cbn; auto 20|].
  destruct (bind (decode (read (rfile req) n)) json_loads) as [data|e];
    [|destruct e; apply Herr; cbn; auto 20].
  unfold analyze.
  destruct (bind (get data (lit "ticket") (VStr (lit ""))) strip_method)
    as [ticket|e]; rewrite mbind_lift; [|apply Herr; cbn; auto 20].
  destruct (not_ ticket); [apply Herr; cbn; auto 20|].
  destruct (len ticket >? MAX_TICKET_LENGTH);
    [rewrite too_long_message; apply Herr; cbn; auto 20|].
  destruct (bedrock_client srv) as [c|];
    [|apply Herr; cbn; auto 20].
  rewrite call_bedrock_eq.
  destruct (bind (invoke_model c (invocation ticket))
                 (reply_outcome json_loads data)) as [sent|e] eqn:E.
  - destruct (invoke_model c (invocation ticket)) as [reply|];
      [|discriminate E].
    destruct (reply_outcome_inv json_loads _ _ _ E)
      as (tid & analysis & _ & ->).
    apply Hok.
  - destruct e; try (apply Herr; cbn; auto 20).
    unfold bedrock_except.
    destruct (contains _ _); [apply Herr; cbn; auto 20|].
    destruct (contains _ _); apply Herr; cbn; auto 20.
Qed.

(** *** What the handlers put on the wire *)

Lemma wire_plain (float_repr : str -> str) (code : Z) (v : value) :
  plain v = true ->
  exists s,
    Wire.send_json_response float_repr (send_json_response code v)
    = Wire.mk_written code
        (("Content-Type", "application/json")%string :: Wire.send_cors_headers)
        (List.map byte_of s) /\
    decode (List.map byte_of s) = Ok s /\
    Json.loads s = Ok v.
Proof.
  intros Hp.
  destruct (plain_crosses_the_wire float_repr v Hp)
    as (s & Hs & _ & Henc & Hdec & Hloads).
  exists s. split; [|split; [exact Hdec | exact Hloads]].
  unfold Wire.send_json_response, send_json_response.
  cbn [data status_code]. rewrite Hs. cbn [bind]. rewrite Henc.
  reflexivity.
Qed.





(** Two surrogates side by side are written as two escapes and read
    back as one character: the strings of a plain value have none. *)
Example surrogates_join :
  bind (Dumps.dumps (fun l => l) (VStr [55357%N; 56832%N])) Json.loads
  = Ok (VStr [128512%N]).
Proof. vm_compute. reflexivity. Qed.

Lemma error_plain (status : Z) (message : string) :
  In (status, message) error_answers -> plain (error message) = true.
Proof.
  unfold error_answers. cbn [In]. intros H.
  repeat (destruct H as [H|H]; [injection H as <- <-; vm_compute; reflexivity|]).
  contradiction.
Qed.


(** Every answer of [do_POST] that is not a 200 reaches the
    client in full: its body decodes and parses to the object
    [{"error": message}] of one of the twelve error answers. *)
Theorem error_answers_reach_the_client
    (float_repr : str -> str) (json_loads : str -> result value)
    (srv : server) (req : request) :
  let w := Wire.do_POST float_repr json_loads srv req in
  Wire.status w = 200 \/
  exists message,
    In (Wire.status w, message) error_answers /\
    bind (decode (Wire.content w)) Json.loads = Ok (error message).
Proof.
  unfold Wire.do_POST.
  apply (do_POST_answers
           (fun sent =>
              let w := Wire.send_json_response float_repr sent in
              Wire.status w = 200 \/
              exists message,
                In (Wire.status w, message) error_answers /\
                bind (decode (Wire.content w)) Json.loads = Ok (error message))).
  - intros ticket_id analysis. left. reflexivity.
  - intros code message Hin. right. exists message.
    destruct (wire_plain float_repr code (error message)
                (error_plain code message Hin)) as (s & Hw & Hdec & Hloads).
    cbv zeta. rewrite Hw. cbn [Wire.status Wire.content]. rewrite Hdec.
    split; [exact Hin | exact Hloads].
Qed.

(** The body of the call to [invoke_model] is always written:
    whatever the ticket holds, [json.dumps] returns, and returns ASCII
    text. *)
Theorem invocation_body_is_written (float_repr : str -> str) (ticket : str) :
  isascii (float_repr (lit "0.7")) = true ->
  exists text,
    Dumps.dumps float_repr (body (invocation ticket)) = Ok text /\
    isascii text = true.
Proof.
  intros Hfloat.
  assert (H : exists text,
             Dumps.dumps float_repr (body (invocation ticket)) = Ok text).
  { eexists. reflexivity. }
  destruct H as (text & Htext). exists text. split; [exact Htext|].
  apply (dumps_isascii (fun _ => float_repr (lit "0.7")) (fun _ => Hfloat)
           (body (invocation ticket)) text).
  exact Htext.
Qed.

Lemma invocation_body_is_written_witness :
  let float_repr := fun literal : str => literal in
  let ticket := [55357%N; 9%N; 8364%N; 34%N] in
  isascii (float_repr (lit "0.7")) = true /\
  exists text,
    Dumps.dumps float_repr (body (invocation ticket)) = Ok text /\
    isascii text = true.
Proof.
  intros float_repr ticket. split; [reflexivity|].
  apply (invocation_body_is_written float_repr ticket). reflexivity.
Defined.

(** *** The tests of [test_app.py] against the handlers *)

(** [test_health] passes whatever the state of the server: with a
    client or without one, at any time of the clock. *)
Theorem test_health_passes
    (float_repr : str -> str) (srv : server) (utcnow : str) :
  forallb scalar utcnow = true ->
  TestApp.test_health float_repr srv utcnow = true.
Proof.
  intros Hutc. unfold TestApp.test_health, Wire.do_GET.
  change (do_GET srv utcnow (mk_request "/health" None None []))
    with (send_json_response 200 (VDict [
            (lit "status", VStr (lit "healthy"));
            (lit "timestamp", VStr utcnow);
            (lit "service", VStr (lit "bedrock-support-assistant"));
            (lit "region", VStr REGION);
            (lit "model", VStr MODEL_ID)])).
  match goal with
  | |- context [send_json_response 200 ?d] =>
      assert (Hp : plain d = true)
        by (cbn [plain forallb]; rewrite Hutc; reflexivity);
      destruct (wire_plain float_repr 200 d Hp) as (s & Hw & Hdec & Hloads)
  end.
  cbv zeta. rewrite Hw. unfold TestApp.urlopen. cbn [Wire.status].
  cbn [Z.leb Z.ltb Z.compare Pos.compare Pos.compare_cont andb bind].
  cbn [Wire.content]. rewrite Hdec. cbn [bind]. rewrite Hloads. reflexivity.
Qed.

Lemma test_health_passes_witness :
  let utcnow := lit "2024-05-01T10:20:30.123456" in
  forallb scalar utcnow = true /\
  TestApp.test_health (fun l => l) (mk_server None) utcnow = true.
Proof.
  intros utcnow. split; [reflexivity|].
  apply (test_health_passes (fun l => l) (mk_server None) utcnow).
  reflexivity.
Defined.





(** *** The request of [test_ticket_analysis] on its way in *)





